(** * JOS trap layer: a shallow embedding of kern/trap.c

    The development follows the source file top to bottom: the exception
    catalog ([trapname]), the gate table builder ([trap_init]), the frame
    printer ([print_trapframe]), the syscall bridge ([syscall_handler]),
    the dispatcher ([trap_dispatch]), the top-level entry ([trap]) and the
    page fault handler ([page_fault_handler]).

    Machine words are integers in [Z]; conversions between C integer types
    are written out.  Kernel state is threaded explicitly through a small
    state-and-halt monad.  Code living in other files of the kernel (the
    monitor, the syscall implementation, environment destruction) is taken
    as an interface, [Collaborators]. *)

From stdpp Require Import base numbers list strings functions.

Local Open Scope string_scope.
Local Open Scope Z_scope.

(** ** Constants of the headers *)

Module Consts.

(** Modelled from the spec: the fixed vector namespace of inc/trap.h, which
    is not under src/.  The numeric values are the x86 vector numbers, the
    ones spelled out in the names of the entry stubs [trap_0] ... [trap_48]
    that kern/trap.c pairs them with, and in the order of [excnames]. *)
Definition T_DIVIDE : Z := 0.
Definition T_DEBUG : Z := 1.
Definition T_NMI : Z := 2.
Definition T_BRKPT : Z := 3.
Definition T_OFLOW : Z := 4.
Definition T_BOUND : Z := 5.
Definition T_ILLOP : Z := 6.
Definition T_DEVICE : Z := 7.
Definition T_DBLFLT : Z := 8.
Definition T_TSS : Z := 10.
Definition T_SEGNP : Z := 11.
Definition T_STACK : Z := 12.
Definition T_GPFLT : Z := 13.
Definition T_PGFLT : Z := 14.
Definition T_FPERR : Z := 16.
Definition T_ALIGN : Z := 17.
Definition T_MCHK : Z := 18.
Definition T_SIMDERR : Z := 19.
Definition T_SYSCALL : Z := 48.

(** Modelled from the spec: segment selectors and flag bits of
    inc/memlayout.h and inc/mmu.h, which are not under src/: kernel text and
    kernel data selectors, the task-state selector, the interrupt-enable and
    direction bits of EFLAGS, the top of the kernel stack and the type of an
    available 32-bit task-state segment. *)
Definition GD_KT : Z := 0x08.
Definition GD_KD : Z := 0x10.
Definition GD_TSS0 : Z := 0x28.
Definition FL_IF : Z := 0x200.
Definition FL_DF : Z := 0x400.
Definition KSTACKTOP : Z := 0xf0000000.
Definition STS_T32A : Z := 0x9.
Definition sizeof_Taskstate : Z := 104.

End Consts.
Export Consts.

(** ** C integer conversions *)

Definition to_uint32 (z : Z) : Z := z mod 2 ^ 32.

Definition to_int32 (z : Z) : Z :=
  let u := z mod 2 ^ 32 in if u <? 2 ^ 31 then u else u - 2 ^ 32.

Definition INT_MIN : Z := - 2 ^ 31.
Definition INT_MAX : Z := 2 ^ 31 - 1.

(** ** Exception catalog *)

Definition excnames : list string :=
  [ "Divide error";
    "Debug";
    "Non-Maskable Interrupt";
    "Breakpoint";
    "Overflow";
    "BOUND Range Exceeded";
    "Invalid Opcode";
    "Device Not Available";
    "Double Fault";
    "Coprocessor Segment Overrun";
    "Invalid TSS";
    "Segment Not Present";
    "Stack Fault";
    "General Protection";
    "Page Fault";
    "(unknown trap)";
    "x87 FPU Floating-Point Error";
    "Alignment Check";
    "Machine-Check";
    "SIMD Floating-Point Exception" ].

(** Modelled from the spec: the macro [ARRAY_SIZE] of inc/types.h, which is
    not under src/; the catalog is a fixed-length table and the macro is
    the number of its entries, [sizeof(a) / sizeof(a[0])], an unsigned
    value. *)
Definition ARRAY_SIZE {A} (a : list A) : Z := Z.of_nat (length a).

(** [trapname(int trapno)].  The comparison [trapno < ARRAY_SIZE(excnames)]
    mixes [int] with an unsigned operand, so [trapno] is converted to
    unsigned first: a negative number never passes the test. *)
Definition trapname (trapno : Z) : string :=
  if to_uint32 trapno <? ARRAY_SIZE excnames
  then default "" (excnames !! Z.to_nat trapno)
  else if trapno =? T_SYSCALL then "System call"
  else "(unknown trap)".

(** ** Gate table *)

(** The entry stubs declared [extern] in trap.c. *)
Inductive EntryStub :=
  | trap_0 | trap_1 | trap_2 | trap_3 | trap_4 | trap_5 | trap_6 | trap_7
  | trap_8 | trap_10 | trap_11 | trap_12 | trap_13 | trap_14 | trap_16
  | trap_17 | trap_18 | trap_19 | trap_48.

Global Instance EntryStub_eq_dec : EqDecision EntryStub.
Proof. solve_decision. Defined.

(** Modelled from the spec: [struct Gatedesc] of inc/mmu.h, which is not
    under src/.  A gate has the attributes the spec lists: target stub,
    selector of the handler code, required caller privilege; plus the
    trap/interrupt kind that [SETGATE] is passed and a present bit. *)
Record Gatedesc := mkGate {
  gd_off : option EntryStub;
  gd_sel : Z;
  gd_istrap : bool;
  gd_dpl : Z;
  gd_p : bool
}.

Global Instance Gatedesc_eq_dec : EqDecision Gatedesc.
Proof. solve_decision. Defined.

(** An entry of [idt[256] = { { 0 } }]. *)
Definition zero_gate : Gatedesc :=
  {| gd_off := None; gd_sel := 0; gd_istrap := false; gd_dpl := 0; gd_p := false |}.

Definition idt_zero : list Gatedesc := replicate 256 zero_gate.

(** Modelled from the spec: [struct Taskstate] and [struct Segdesc] of
    inc/mmu.h, not under src/, with the fields trap.c writes: the
    privileged stack pointer and segment, and the descriptor's type, limit,
    privilege level and system bit. *)
Record Taskstate := mkTs { ts_esp0 : Z; ts_ss0 : Z }.

Record Segdesc := mkSeg { sd_type : Z; sd_lim : Z; sd_dpl : Z; sd_s : Z }.

(** What trap.c owns of the descriptor tables, and what it loads into the
    processor: [idt], [ts], the TSS slot of [gdt], the task register and
    the IDT register. *)
Record DescTables := mkTables {
  idt : list Gatedesc;
  ts : Taskstate;
  gdt_tss0 : option Segdesc;
  cpu_tr : option Z;
  cpu_idtr : option (list Gatedesc)
}.

Definition boot_tables : DescTables :=
  {| idt := idt_zero; ts := mkTs 0 0; gdt_tss0 := None;
     cpu_tr := None; cpu_idtr := None |}.

(** Modelled from the spec: [SETGATE] of inc/mmu.h, which is not under
    src/ (the spec leaves the bit packing out of scope): it makes the gate
    present and records the stub, the selector and the privilege level. *)
Definition SETGATE (d : DescTables) (vec : Z) (istrap : bool) (sel : Z)
    (off : EntryStub) (dpl : Z) : DescTables :=
  {| idt := <[Z.to_nat vec := mkGate (Some off) sel istrap dpl true]> (idt d);
     ts := ts d; gdt_tss0 := gdt_tss0 d;
     cpu_tr := cpu_tr d; cpu_idtr := cpu_idtr d |}.

(** [trap_init_percpu]: set up the TSS, install its descriptor (with
    [sd_s] cleared), load the task register and the IDT register. *)
Definition trap_init_percpu (d : DescTables) : DescTables :=
  let ts' := {| ts_esp0 := KSTACKTOP; ts_ss0 := GD_KD |} in
  let seg := {| sd_type := STS_T32A; sd_lim := sizeof_Taskstate - 1;
                sd_dpl := 0; sd_s := 1 |} in
  let seg' := {| sd_type := sd_type seg; sd_lim := sd_lim seg;
                 sd_dpl := sd_dpl seg; sd_s := 0 |} in
  {| idt := idt d; ts := ts'; gdt_tss0 := Some seg';
     cpu_tr := Some GD_TSS0; cpu_idtr := Some (idt d) |}.

(** The [SETGATE] lines of [trap_init], one row per line, in source
    order: vector, entry stub, privilege level.  Every line passes
    [istrap = 0] and the selector [GD_KT]. *)
Definition trap_init_gates : list (Z * EntryStub * Z) :=
  [ (T_DIVIDE,  trap_0,  0);
    (T_DEBUG,   trap_1,  0);
    (T_NMI,     trap_2,  0);
    (T_BRKPT,   trap_3,  3);
    (T_OFLOW,   trap_4,  0);
    (T_BOUND,   trap_5,  0);
    (T_ILLOP,   trap_6,  0);
    (T_DEVICE,  trap_7,  0);
    (T_DBLFLT,  trap_8,  0);
    (T_TSS,     trap_10, 0);
    (T_SEGNP,   trap_11, 0);
    (T_STACK,   trap_12, 0);
    (T_GPFLT,   trap_13, 0);
    (T_PGFLT,   trap_14, 0);
    (T_FPERR,   trap_16, 0);
    (T_ALIGN,   trap_17, 0);
    (T_MCHK,    trap_18, 0);
    (T_SIMDERR, trap_19, 0);
    (T_SYSCALL, trap_48, 3) ].

Definition trap_init (d : DescTables) : DescTables :=
  trap_init_percpu
    (foldl (fun d '(vec, stub, dpl) => SETGATE d vec false GD_KT stub dpl)
           d trap_init_gates).

(** The gate the processor finds for a trap number. *)
Definition gate_at (d : DescTables) (n : Z) : option Gatedesc :=
  if n <? 0 then None else idt d !! Z.to_nat n.

Definition gate_installed (d : DescTables) (n : Z) : bool :=
  match gate_at d n with Some g => gd_p g | None => false end.

(** How many [SETGATE] lines of [trap_init] target vector [n]. *)
Definition gates_written (n : Z) : nat :=
  length (filter (fun r => r.1.1 = n) trap_init_gates).

(** The vectors inc/trap.h names: eighteen processor exceptions and the
    system call vector. *)
Definition exception_vectors : list Z :=
  [ T_DIVIDE; T_DEBUG; T_NMI; T_BRKPT; T_OFLOW; T_BOUND; T_ILLOP; T_DEVICE;
    T_DBLFLT; T_TSS; T_SEGNP; T_STACK; T_GPFLT; T_PGFLT; T_FPERR; T_ALIGN;
    T_MCHK; T_SIMDERR ].

Definition fixed_namespace : list Z := exception_vectors ++ [T_SYSCALL].

(** The stub that belongs to a vector, by the stubs' names. *)
Definition stub_of (n : Z) : option EntryStub :=
  match n with
  | 0 => Some trap_0 | 1 => Some trap_1 | 2 => Some trap_2 | 3 => Some trap_3
  | 4 => Some trap_4 | 5 => Some trap_5 | 6 => Some trap_6 | 7 => Some trap_7
  | 8 => Some trap_8 | 10 => Some trap_10 | 11 => Some trap_11
  | 12 => Some trap_12 | 13 => Some trap_13 | 14 => Some trap_14
  | 16 => Some trap_16 | 17 => Some trap_17 | 18 => Some trap_18
  | 19 => Some trap_19 | 48 => Some trap_48
  | _ => None
  end.

(** ** Saved trap frames, environments, kernel state *)

(** Modelled from the spec: [struct PushRegs] of inc/trap.h, which is not
    under src/: the eight general-purpose registers, in the order
    [print_regs] prints them. *)
Record PushRegs := mkRegs {
  reg_edi : Z; reg_esi : Z; reg_ebp : Z; reg_oesp : Z;
  reg_ebx : Z; reg_edx : Z; reg_ecx : Z; reg_eax : Z
}.

(** Modelled from the spec: [struct Trapframe] of inc/trap.h, which is not
    under src/, with the fields trap.c names: register snapshot, segment
    selectors, trap number, error code, instruction pointer, code segment,
    flags, and the stack pointer and segment of a user-origin trap (the
    padding words next to the 16-bit selectors are left out). *)
Record Trapframe := mkTf {
  tf_regs : PushRegs;
  tf_es : Z; tf_ds : Z;
  tf_trapno : Z; tf_err : Z;
  tf_eip : Z; tf_cs : Z; tf_eflags : Z;
  tf_esp : Z; tf_ss : Z
}.

(** Modelled from the spec: the status and the record of an environment,
    inc/env.h, not under src/, with the fields trap.c reads and writes: the
    saved frame slot, the id and the status. *)
Inductive EnvStatus :=
  | ENV_FREE | ENV_DYING | ENV_RUNNABLE | ENV_RUNNING | ENV_NOT_RUNNABLE.

Global Instance EnvStatus_eq_dec : EqDecision EnvStatus.
Proof. solve_decision. Defined.

Record Env := mkEnv { env_tf : Trapframe; env_id : Z; env_status : EnvStatus }.

(** A [struct Trapframe *]: the frame the entry stub pushed on the kernel
    stack, or the [env_tf] slot of an environment (an index into [envs]). *)
Inductive tfptr := KStackTf | EnvTf (e : nat).

Global Instance tfptr_eq_dec : EqDecision tfptr.
Proof. solve_decision. Defined.

(** One call of [cprintf]: the format as written in the source (escape
    sequences left as written), and the arguments passed. *)
Inductive Arg := AInt (z : Z) | AStr (s : string) | APtr (p : tfptr).

Record Cprintf := mkPrint { fmt : string; args : list Arg }.

Global Instance Arg_eq_dec : EqDecision Arg.
Proof. solve_decision. Defined.

Global Instance Cprintf_eq_dec : EqDecision Cprintf.
Proof. solve_decision. Defined.

(** Processor registers read by trap.c ([read_eflags], [rcr2]), the memory
    it reaches through pointers (the frame on the kernel stack, the
    environments, [curenv]), its own [static last_tf], and the console. *)
Record KState := mkState {
  cpu_eflags : Z;
  cpu_cr2 : Z;
  kstack_tf : Trapframe;
  envs : nat -> Env;
  curenv : option nat;
  last_tf : option tfptr;
  console : list Cprintf
}.

Definition set_eflags (v : Z) (st : KState) : KState :=
  mkState v (cpu_cr2 st) (kstack_tf st) (envs st) (curenv st) (last_tf st)
          (console st).

Definition set_kstack_tf (f : Trapframe) (st : KState) : KState :=
  mkState (cpu_eflags st) (cpu_cr2 st) f (envs st) (curenv st) (last_tf st)
          (console st).

Definition set_envs (es : nat -> Env) (st : KState) : KState :=
  mkState (cpu_eflags st) (cpu_cr2 st) (kstack_tf st) es (curenv st)
          (last_tf st) (console st).

Definition set_curenv (c : option nat) (st : KState) : KState :=
  mkState (cpu_eflags st) (cpu_cr2 st) (kstack_tf st) (envs st) c
          (last_tf st) (console st).

Definition set_last_tf (p : option tfptr) (st : KState) : KState :=
  mkState (cpu_eflags st) (cpu_cr2 st) (kstack_tf st) (envs st) (curenv st)
          p (console st).

Definition log (ls : list Cprintf) (st : KState) : KState :=
  mkState (cpu_eflags st) (cpu_cr2 st) (kstack_tf st) (envs st) (curenv st)
          (last_tf st) (console st ++ ls).

Definition set_env_tf (f : Trapframe) (e : Env) : Env :=
  mkEnv f (env_id e) (env_status e).

Definition set_env_status (s : EnvStatus) (e : Env) : Env :=
  mkEnv (env_tf e) (env_id e) s.

Definition set_reg_eax (v : Z) (f : Trapframe) : Trapframe :=
  let r := tf_regs f in
  mkTf (mkRegs (reg_edi r) (reg_esi r) (reg_ebp r) (reg_oesp r)
               (reg_ebx r) (reg_edx r) (reg_ecx r) v)
       (tf_es f) (tf_ds f) (tf_trapno f) (tf_err f) (tf_eip f) (tf_cs f)
       (tf_eflags f) (tf_esp f) (tf_ss f).

(** [*tf] and [*tf = f]. *)
Definition load_tf (p : tfptr) (st : KState) : Trapframe :=
  match p with
  | KStackTf => kstack_tf st
  | EnvTf e => env_tf (envs st e)
  end.

Definition store_tf (p : tfptr) (f : Trapframe) (st : KState) : KState :=
  match p with
  | KStackTf => set_kstack_tf f st
  | EnvTf e => set_envs (<[e := set_env_tf f (envs st e)]> (envs st)) st
  end.

(** ** The monad: state, and the ways a call does not return *)

Inductive Halt :=
  | Panic (msg : string)   (* [panic], also through a failed [assert] *)
  | NullDeref.             (* a field read through a NULL [curenv] *)

Inductive Result (A : Type) :=
  | Ret (a : A) (st : KState)
  | Stop (h : Halt) (st : KState).
Arguments Ret {A} a st.
Arguments Stop {A} h st.

Definition M (A : Type) : Type := KState -> Result A.

Global Instance M_ret : MRet M := fun A a st => Ret a st.

Global Instance M_bind : MBind M := fun A B k m st =>
  match m st with
  | Ret a st' => k a st'
  | Stop h st' => Stop h st'
  end.

Definition gets {A} (f : KState -> A) : M A := fun st => Ret (f st) st.

Definition modify (f : KState -> KState) : M unit := fun st => Ret tt (f st).

(** Modelled from the spec: [panic] and [assert] of inc/assert.h, which is
    not under src/.  A panic is the irrecoverable halt of the spec: the call
    does not return.  A failed assertion is a panic that carries the text of
    the asserted expression. *)
Definition panic {A} (msg : string) : M A := fun st => Stop (Panic msg) st.

Definition assert (b : bool) (x : string) : M unit :=
  if b then mret tt else panic ("assertion failed: " +:+ x).

(** Modelled from the spec: [cprintf] of the console code and the register
    reads [read_eflags] and [rcr2] of inc/x86.h, none under src/: a call of
    [cprintf] adds one line to the diagnostic output, the reads return the
    processor's flags and its fault-address register. *)
Definition cprintf (f : string) (a : list Arg) : M unit :=
  modify (log [mkPrint f a]).

Definition read_eflags : M Z := gets cpu_eflags.

Definition rcr2 : M Z := gets cpu_cr2.

(** [asm volatile("cld")]: clears the direction flag and nothing else. *)
Definition cld : M unit :=
  modify (fun st => set_eflags (Z.ldiff (cpu_eflags st) FL_DF) st).

Definition load (p : tfptr) : M Trapframe := gets (load_tf p).

(** What the outermost call ends in: [trap] never returns to its caller.
    Modelled from the spec: [env_run] of kern/env.c, not under src/, is the
    resume primitive that does not return. *)
Inductive Outcome :=
  | EnvRun (e : nat) (st : KState)    (* [env_run(curenv)] *)
  | Halted (h : Halt) (st : KState).

(** ** Collaborators *)

(** Modelled from the spec: the functions of kern/monitor.c, kern/syscall.c
    and kern/env.c that trap.c calls, none of them under src/.  The spec
    gives their interface: the debugger is entered with the frame and is
    resumable, the syscall implementation maps a number and five words to a
    signed 32-bit result, termination of a process returns.  Each may change
    kernel state. *)
Class Collaborators := {
  monitor : tfptr -> KState -> KState;
  syscall : Z -> Z -> Z -> Z -> Z -> Z -> KState -> Z * KState;
  env_destroy : option nat -> KState -> KState
}.

(** ** The functions of kern/trap.c *)

Section Trap.
Context `{Collaborators}.

Definition call_monitor (tf : tfptr) : M unit := modify (monitor tf).

Definition call_syscall (num a1 a2 a3 a4 a5 : Z) : M Z := fun st =>
  let '(r, st') := syscall num a1 a2 a3 a4 a5 st in Ret r st'.

Definition call_env_destroy (e : option nat) : M unit :=
  modify (env_destroy e).

Definition print_regs (regs : PushRegs) : M unit :=
  cprintf "  edi  0x%08x\n" [AInt (reg_edi regs)];;
  cprintf "  esi  0x%08x\n" [AInt (reg_esi regs)];;
  cprintf "  ebp  0x%08x\n" [AInt (reg_ebp regs)];;
  cprintf "  oesp 0x%08x\n" [AInt (reg_oesp regs)];;
  cprintf "  ebx  0x%08x\n" [AInt (reg_ebx regs)];;
  cprintf "  edx  0x%08x\n" [AInt (reg_edx regs)];;
  cprintf "  ecx  0x%08x\n" [AInt (reg_ecx regs)];;
  cprintf "  eax  0x%08x\n" [AInt (reg_eax regs)].

(** [print_trapframe].  The frame is read once: [cprintf] writes to the
    console only.  [trapname] takes an [int], the trap number is unsigned. *)
Definition print_trapframe (tf : tfptr) : M unit :=
  f ← load tf;
  cprintf "TRAP frame at %p\n" [APtr tf];;
  print_regs (tf_regs f);;
  cprintf "  es   0x----%04x\n" [AInt (tf_es f)];;
  cprintf "  ds   0x----%04x\n" [AInt (tf_ds f)];;
  cprintf "  trap 0x%08x %s\n"
          [AInt (tf_trapno f); AStr (trapname (to_int32 (tf_trapno f)))];;
  last ← gets last_tf;
  (if bool_decide (Some tf = last) && (tf_trapno f =? T_PGFLT)
   then cr2 ← rcr2; cprintf "  cr2  0x%08x\n" [AInt cr2]
   else mret tt);;
  cprintf "  err  0x%08x" [AInt (tf_err f)];;
  (if tf_trapno f =? T_PGFLT
   then cprintf " [%s, %s, %s]\n"
          [AStr (if Z.land (tf_err f) 4 =? 0 then "kernel" else "user");
           AStr (if Z.land (tf_err f) 2 =? 0 then "read" else "write");
           AStr (if Z.land (tf_err f) 1 =? 0 then "not-present"
                 else "protection")]
   else cprintf "\n" []);;
  cprintf "  eip  0x%08x\n" [AInt (tf_eip f)];;
  cprintf "  cs   0x----%04x\n" [AInt (tf_cs f)];;
  cprintf "  flag 0x%08x\n" [AInt (tf_eflags f)];;
  (if negb (Z.land (tf_cs f) 3 =? 0)
   then cprintf "  esp  0x%08x\n" [AInt (tf_esp f)];;
        cprintf "  ss   0x----%04x\n" [AInt (tf_ss f)]
   else mret tt).

(** [syscall_handler]: the six reads, the call, and the store of the
    [int32_t] result into the [uint32_t] slot [reg_eax] of [*tf]. *)
Definition syscall_handler (tf : tfptr) : M unit :=
  num ← gets (fun st => reg_eax (tf_regs (load_tf tf st)));
  a1 ← gets (fun st => reg_edx (tf_regs (load_tf tf st)));
  a2 ← gets (fun st => reg_ecx (tf_regs (load_tf tf st)));
  a3 ← gets (fun st => reg_ebx (tf_regs (load_tf tf st)));
  a4 ← gets (fun st => reg_edi (tf_regs (load_tf tf st)));
  a5 ← gets (fun st => reg_esi (tf_regs (load_tf tf st)));
  sys_ret ← call_syscall num a1 a2 a3 a4 a5;
  modify (fun st => store_tf tf (set_reg_eax (to_uint32 sys_ret)
                                             (load_tf tf st)) st).

(** [page_fault_handler]. *)
Definition page_fault_handler (tf : tfptr) : M unit :=
  fault_va ← rcr2;
  f ← load tf;
  (if Z.land (tf_cs f) 3 =? 0 then panic "Kernel page fault" else mret tt);;
  cur ← gets curenv;
  id ← (match cur with
        | Some e => gets (fun st => env_id (envs st e))
        | None => fun st => Stop NullDeref st
        end);
  cprintf "[%08x] user fault va %08x ip %08x\n"
          [AInt id; AInt fault_va; AInt (tf_eip f)];;
  print_trapframe tf;;
  cur ← gets curenv;
  call_env_destroy cur.

(** [trap_dispatch]: the [switch] and the unexpected-trap tail. *)
Definition trap_dispatch (tf : tfptr) : M unit :=
  f ← load tf;
  if tf_trapno f =? T_BRKPT then call_monitor tf
  else if tf_trapno f =? T_PGFLT then page_fault_handler tf
  else if tf_trapno f =? T_SYSCALL then syscall_handler tf
  else
    print_trapframe tf;;
    f ← load tf;
    if tf_cs f =? GD_KT then panic "unhandled trap in kernel"
    else cur ← gets curenv; call_env_destroy cur.

(** [trap], up to and including [last_tf = tf]: the value returned is the
    pointer that [trap_dispatch] receives. *)
Definition trap_entry (tf : tfptr) : M tfptr :=
  cld;;
  fl ← read_eflags;
  assert (Z.land fl FL_IF =? 0) "!(read_eflags() & FL_IF)";;
  cprintf "Incoming TRAP frame at %p\n" [APtr tf];;
  f ← load tf;
  tf' ← (if Z.land (tf_cs f) 3 =? 3 then
           cur ← gets curenv;
           assert (bool_decide (is_Some cur)) "curenv";;
           match cur with
           | Some e =>
               f ← load tf;
               modify (store_tf (EnvTf e) f);;
               mret (EnvTf e)
           | None => mret tf
           end
         else mret tf);
  modify (set_last_tf (Some tf'));;
  mret tf'.

(** [trap], after [trap_dispatch] has returned: the assertion, and
    [env_run(curenv)], which does not return. *)
Definition trap_exit (st : KState) : Outcome :=
  match curenv st with
  | Some e =>
      if bool_decide (env_status (envs st e) = ENV_RUNNING)
      then EnvRun e st
      else Halted (Panic "assertion failed: curenv && curenv->env_status == ENV_RUNNING") st
  | None =>
      Halted (Panic "assertion failed: curenv && curenv->env_status == ENV_RUNNING") st
  end.

Definition trap (tf : tfptr) (st : KState) : Outcome :=
  match (tf' ← trap_entry tf; trap_dispatch tf') st with
  | Ret _ st' => trap_exit st'
  | Stop h st' => Halted h st'
  end.

End Trap.

Definition final_state (o : Outcome) : KState :=
  match o with EnvRun _ st => st | Halted _ st => st end.

(** Modelled from the spec: the resume primitive [env_run] of kern/env.c,
    not under src/, reads the saved frame slot of the process it resumes;
    this is the frame it restores. *)
Definition resumed_frame (o : Outcome) : option Trapframe :=
  match o with
  | EnvRun e st => Some (env_tf (envs st e))
  | Halted _ _ => None
  end.

(** An integer argument [z] appears in some line of the console. *)
Definition mentions (out : list Cprintf) (z : Z) : Prop :=
  ∃ c, c ∈ out ∧ AInt z ∈ args c.

Global Instance mentions_dec out z : Decision (mentions out z).
Proof.
  unfold mentions.
  destruct (decide (Exists (fun c => AInt z ∈ args c) out)) as [Hy|Hn].
  - left. apply list.Exists_exists in Hy. destruct Hy as (c & ? & ?).
    exists c. split; assumption.
  - right. intros (c & ? & ?). apply Hn, list.Exists_exists.
    exists c. split; assumption.
Defined.

(** ** Sample frames, states and collaborators

    Concrete inputs on which the theorems below are exercised. *)

Module Sample.

(** A debugger that returns at once; a syscall implementation that adds its
    first two arguments; a destruction that frees the environment and hands
    the processor to the next one. *)
Definition collab : Collaborators :=
  {| monitor := fun _ st => st;
     syscall := fun _ a1 a2 _ _ _ st => (to_int32 (a1 + a2), st);
     env_destroy := fun e st =>
       match e with
       | Some e =>
           set_curenv (Some (S e))
             (set_envs
                (<[S e := set_env_status ENV_RUNNING (envs st (S e))]>
                   (<[e := set_env_status ENV_FREE (envs st e)]> (envs st)))
                st)
       | None => st
       end |}.

(** A frame with the given trap number and code segment; the registers
    encode syscall 5 with arguments 10, 20, 0, 0, 0. *)
Definition frame (trapno cs : Z) : Trapframe :=
  {| tf_regs := {| reg_edi := 0; reg_esi := 0; reg_ebp := 0xeebfdfb0;
                   reg_oesp := 0xefffffdc; reg_ebx := 0; reg_edx := 10;
                   reg_ecx := 20; reg_eax := 5 |};
     tf_es := 0x23; tf_ds := 0x23;
     tf_trapno := trapno; tf_err := 0;
     tf_eip := 0x00801234; tf_cs := cs; tf_eflags := 0x202;
     tf_esp := 0xeebfdfd0; tf_ss := 0x23 |}.

Definition blank_tf : Trapframe :=
  mkTf (mkRegs 0 0 0 0 0 0 0 0) 0 0 0 0 0 0 0 0 0.

(** Environment 0 is running, the others are runnable; interrupts are
    disabled, the direction flag is set, and the fault address register
    holds [0xDEADBEEF]. *)
Definition state (f : Trapframe) : KState :=
  {| cpu_eflags := 0x402;
     cpu_cr2 := 0xDEADBEEF;
     kstack_tf := f;
     envs := fun n => mkEnv blank_tf (0x1000 + Z.of_nat n)
                            (if decide (n = 0%nat) then ENV_RUNNING
                             else ENV_RUNNABLE);
     curenv := Some 0%nat;
     last_tf := None;
     console := [] |}.

(** User code segment [GD_UT | 3]. *)
Definition user_cs : Z := 0x1b.

(** A general protection fault and a page fault, each taken in the kernel
    and in user mode; a system call and a breakpoint from user mode; and a
    trap arriving while the processor has interrupts enabled. *)
Definition kernel_gpf : KState := state (frame T_GPFLT GD_KT).
Definition user_gpf : KState := state (frame T_GPFLT user_cs).
Definition kernel_pgflt : KState := state (frame T_PGFLT GD_KT).
Definition user_pgflt : KState := state (frame T_PGFLT user_cs).
Definition user_syscall : KState := state (frame T_SYSCALL user_cs).
Definition user_brkpt : KState := state (frame T_BRKPT user_cs).
Definition irq_on : KState := set_eflags 0x602 user_syscall.

End Sample.

(** ** Vocabulary of the statements *)

Definition result_state {A} (r : Result A) : KState :=
  match r with Ret _ st => st | Stop _ st => st end.

(** The state after [cld]. *)
Definition cld_state (st : KState) : KState :=
  set_eflags (Z.ldiff (cpu_eflags st) FL_DF) st.

(** The line [trap] prints for the frame it receives. *)
Definition incoming (tf : tfptr) : Cprintf :=
  mkPrint "Incoming TRAP frame at %p\n" [APtr tf].

(** The state in which [trap_dispatch] starts when the frame is not copied,
    and when it is copied into [curenv = e]. *)
Definition entered (tf : tfptr) (st : KState) : KState :=
  set_last_tf (Some tf) (log [incoming tf] (cld_state st)).

Definition entered_user (tf : tfptr) (e : nat) (st : KState) : KState :=
  set_last_tf (Some (EnvTf e))
    (store_tf (EnvTf e) (load_tf tf st) (log [incoming tf] (cld_state st))).

(** The line of [page_fault_handler] for a user fault. *)
Definition user_fault_line (id va ip : Z) : Cprintf :=
  mkPrint "[%08x] user fault va %08x ip %08x\n" [AInt id; AInt va; AInt ip].

(** Some line of [ls] is the fault-address line of [print_trapframe]. *)
Definition shows_cr2 (ls : list Cprintf) : Prop :=
  ∃ a, mkPrint "  cr2  0x%08x\n" a ∈ ls.

(** Two frames agree on every slot but [reg_eax]. *)
Definition same_but_eax (f f' : Trapframe) : Prop :=
  reg_edi (tf_regs f') = reg_edi (tf_regs f)
  ∧ reg_esi (tf_regs f') = reg_esi (tf_regs f)
  ∧ reg_ebp (tf_regs f') = reg_ebp (tf_regs f)
  ∧ reg_oesp (tf_regs f') = reg_oesp (tf_regs f)
  ∧ reg_ebx (tf_regs f') = reg_ebx (tf_regs f)
  ∧ reg_edx (tf_regs f') = reg_edx (tf_regs f)
  ∧ reg_ecx (tf_regs f') = reg_ecx (tf_regs f)
  ∧ tf_es f' = tf_es f ∧ tf_ds f' = tf_ds f
  ∧ tf_trapno f' = tf_trapno f ∧ tf_err f' = tf_err f
  ∧ tf_eip f' = tf_eip f ∧ tf_cs f' = tf_cs f
  ∧ tf_eflags f' = tf_eflags f
  ∧ tf_esp f' = tf_esp f ∧ tf_ss f' = tf_ss f.

(** The collaborators leave an observation [obs] of the kernel state as it
    was. *)
Definition keeps `{Collaborators} {A} (obs : KState -> A) : Prop :=
  (∀ p s, obs (monitor p s) = obs s)
  ∧ (∀ n a1 a2 a3 a4 a5 s, obs (syscall n a1 a2 a3 a4 a5 s).2 = obs s)
  ∧ (∀ e s, obs (env_destroy e s) = obs s).

(** The interrupt-enable bit of the processor's EFLAGS. *)
Definition cpu_IF (st : KState) : Z := Z.land (cpu_eflags st) FL_IF.

(** The trap number has a case in the [switch] of [trap_dispatch]. *)
Definition handled (trapno : Z) : Prop :=
  trapno = T_BRKPT ∨ trapno = T_PGFLT ∨ trapno = T_SYSCALL.

(** ** Further vocabulary and inputs *)

(** Some line of [ls] has the format [f]. *)
Definition has_line (f : string) (ls : list Cprintf) : Prop :=
  ∃ a, mkPrint f a ∈ ls.

(** The lines [print_regs] and [print_trapframe] add to the console, as
    lists; [print_trapframe_lines] below proves that they are what the code
    prints. *)
Definition regs_lines (regs : PushRegs) : list Cprintf :=
  [ mkPrint "  edi  0x%08x\n" [AInt (reg_edi regs)];
    mkPrint "  esi  0x%08x\n" [AInt (reg_esi regs)];
    mkPrint "  ebp  0x%08x\n" [AInt (reg_ebp regs)];
    mkPrint "  oesp 0x%08x\n" [AInt (reg_oesp regs)];
    mkPrint "  ebx  0x%08x\n" [AInt (reg_ebx regs)];
    mkPrint "  edx  0x%08x\n" [AInt (reg_edx regs)];
    mkPrint "  ecx  0x%08x\n" [AInt (reg_ecx regs)];
    mkPrint "  eax  0x%08x\n" [AInt (reg_eax regs)] ].

Definition trapframe_lines (tf : tfptr) (st : KState) : list Cprintf :=
  let f := load_tf tf st in
  ([mkPrint "TRAP frame at %p\n" [APtr tf]]
   ++ regs_lines (tf_regs f)
   ++ [ mkPrint "  es   0x----%04x\n" [AInt (tf_es f)];
        mkPrint "  ds   0x----%04x\n" [AInt (tf_ds f)];
        mkPrint "  trap 0x%08x %s\n"
          [AInt (tf_trapno f); AStr (trapname (to_int32 (tf_trapno f)))] ]
   ++ (if bool_decide (Some tf = last_tf st) && (tf_trapno f =? T_PGFLT)
       then [mkPrint "  cr2  0x%08x\n" [AInt (cpu_cr2 st)]] else [])
   ++ [mkPrint "  err  0x%08x" [AInt (tf_err f)]]
   ++ [if tf_trapno f =? T_PGFLT
       then mkPrint " [%s, %s, %s]\n"
              [AStr (if Z.land (tf_err f) 4 =? 0 then "kernel" else "user");
               AStr (if Z.land (tf_err f) 2 =? 0 then "read" else "write");
               AStr (if Z.land (tf_err f) 1 =? 0 then "not-present"
                     else "protection")]
       else mkPrint "\n" []]
   ++ [ mkPrint "  eip  0x%08x\n" [AInt (tf_eip f)];
        mkPrint "  cs   0x----%04x\n" [AInt (tf_cs f)];
        mkPrint "  flag 0x%08x\n" [AInt (tf_eflags f)] ]
   ++ (if negb (Z.land (tf_cs f) 3 =? 0)
       then [ mkPrint "  esp  0x%08x\n" [AInt (tf_esp f)];
              mkPrint "  ss   0x----%04x\n" [AInt (tf_ss f)] ]
       else []))%list.

(** The collaborators keep a property [P] of the kernel state once it
    holds. *)
Definition preserves `{Collaborators} (P : KState -> Prop) : Prop :=
  (∀ p s, P s → P (monitor p s))
  ∧ (∀ n a1 a2 a3 a4 a5 s, P s → P (syscall n a1 a2 a3 a4 a5 s).2)
  ∧ (∀ e s, P s → P (env_destroy e s)).

(** The gate [trap_init] writes for a vector of its table, if any. *)
Definition gate_of (n : Z) : option Gatedesc :=
  match filter (fun r => r.1.1 = n) trap_init_gates with
  | (_, stub, dpl) :: _ => Some (mkGate (Some stub) GD_KT false dpl true)
  | [] => None
  end.

Module Edge.

(** Collaborators without a scheduler: the debugger returns at once, every
    syscall returns 0, and destroying the current environment leaves no
    environment current. *)
Definition collab : Collaborators :=
  {| monitor := fun _ st => st;
     syscall := fun _ _ _ _ _ _ st => (0, st);
     env_destroy := fun e st =>
       match e with
       | Some e =>
           set_curenv
             (if bool_decide (curenv st = Some e) then None else curenv st)
             (set_envs (<[e := set_env_status ENV_FREE (envs st e)]> (envs st))
                       st)
       | None => st
       end |}.

(** Traps taken while no environment is current. *)
Definition no_curenv (f : Trapframe) : KState :=
  set_curenv None (Sample.state f).

(** A gate table that already holds a gate at vector 32 and a stale gate at
    the breakpoint vector. *)
Definition used_tables : DescTables :=
  SETGATE (SETGATE boot_tables 32 true GD_KT trap_0 0) T_BRKPT true GD_KD
          trap_0 0.

End Edge.

(** ** Vocabulary for dispatch and for lines of text *)

(** The lines [print_trapframe] prints for a frame that is not a page
    fault: no fault-address line, and a bare line break after the error
    code. *)
Definition unhandled_frame_lines (tf : tfptr) (f : Trapframe)
    : list Cprintf :=
  ([mkPrint "TRAP frame at %p\n" [APtr tf]]
   ++ regs_lines (tf_regs f)
   ++ [ mkPrint "  es   0x----%04x\n" [AInt (tf_es f)];
        mkPrint "  ds   0x----%04x\n" [AInt (tf_ds f)];
        mkPrint "  trap 0x%08x %s\n"
          [AInt (tf_trapno f); AStr (trapname (to_int32 (tf_trapno f)))];
        mkPrint "  err  0x%08x" [AInt (tf_err f)];
        mkPrint "\n" [];
        mkPrint "  eip  0x%08x\n" [AInt (tf_eip f)];
        mkPrint "  cs   0x----%04x\n" [AInt (tf_cs f)];
        mkPrint "  flag 0x%08x\n" [AInt (tf_eflags f)] ]
   ++ (if negb (Z.land (tf_cs f) 3 =? 0)
       then [ mkPrint "  esp  0x%08x\n" [AInt (tf_esp f)];
              mkPrint "  ss   0x----%04x\n" [AInt (tf_ss f)] ]
       else []))%list.


(** The line breaks of a format: the formats keep the source's spelling, a
    backslash (character 92) followed by [n] (character 110). *)
Fixpoint line_breaks (s : string) : nat :=
  match s with
  | EmptyString => 0
  | String c r =>
      match r with
      | EmptyString => 0
      | String d r' =>
          if Ascii.eqb c (Ascii.ascii_of_nat 92)
             && Ascii.eqb d (Ascii.ascii_of_nat 110)
          then S (line_breaks r') else line_breaks r
      end
  end.

(** The lines of text a sequence of [cprintf] calls makes. *)
Definition lines_of_text (ls : list Cprintf) : nat :=
  sum_list (map (fun c => line_breaks (fmt c)) ls).

Module Terminate.

(** Modelled from the spec: [env_destroy] of kern/env.c, which is not under
    src/, as the spec's interface gives it, [terminate(ProcessHandle)]: it
    destroys the process, freeing its record, and returns; it does no
    scheduling.  The debugger returns at once and every syscall returns
    0. *)
Definition collab : Collaborators :=
  {| monitor := fun _ st => st;
     syscall := fun _ _ _ _ _ _ st => (0, st);
     env_destroy := fun e st =>
       match e with
       | Some e =>
           set_envs (<[e := set_env_status ENV_FREE (envs st e)]> (envs st))
                    st
       | None => st
       end |}.

End Terminate.

Module Probe.

(** A syscall implementation that returns the interrupt-enable bit it
    finds the processor with. *)
Definition collab : Collaborators :=
  {| monitor := fun _ st => st;
     syscall := fun _ _ _ _ _ _ st => (cpu_IF st, st);
     env_destroy := fun _ st => st |}.

End Probe.

(** * Properties *)

(** ** Exception catalog *)

Lemma to_uint32_nonneg n : 0 ≤ n ≤ INT_MAX → to_uint32 n = n.
Proof.
  unfold to_uint32, INT_MAX. intros. apply Z.mod_small. lia.
Qed.

Lemma to_uint32_neg n : INT_MIN ≤ n < 0 → 2 ^ 31 ≤ to_uint32 n.
Proof.
  unfold to_uint32, INT_MIN. intros.
  replace n with (n + 2 ^ 32 - 1 * 2 ^ 32) by lia.
  rewrite Zminus_mod, Z_mod_mult, Z.sub_0_r, Z.mod_mod by lia.
  rewrite Z.mod_small; lia.
Qed.

Lemma excnames_size : ARRAY_SIZE excnames = 20.
Proof. reflexivity. Qed.

(** C9: the catalog lookup is total on [int]: a number inside the table's
    range gets its table entry, the syscall vector gets "System call", and
    every other number (negative ones and those above the range included)
    gets "(unknown trap)".  The three cases exclude one another, so a number
    has exactly one name. *)
Theorem trapname_total (n : Z) :
  INT_MIN ≤ n ≤ INT_MAX →
  (0 ≤ n < ARRAY_SIZE excnames ∧ excnames !! Z.to_nat n = Some (trapname n))
  ∨ (n = T_SYSCALL ∧ trapname n = "System call")
  ∨ (¬ (0 ≤ n < ARRAY_SIZE excnames) ∧ n ≠ T_SYSCALL
     ∧ trapname n = "(unknown trap)").
Proof.
  intros Hn. unfold trapname. rewrite excnames_size.
  destruct (Z.ltb_spec (to_uint32 n) 20) as [Hlt|Hge].
  - left.
    assert (0 ≤ n < 20) as Hr.
    { destruct (Z.lt_ge_cases n 0) as [Hneg|Hpos].
      - pose proof (to_uint32_neg n ltac:(lia)). lia.
      - rewrite to_uint32_nonneg in Hlt by lia. lia. }
    split; [exact Hr|].
    destruct (lookup_lt_is_Some_2 excnames (Z.to_nat n)) as [s Hs].
    { change (length excnames) with 20%nat. lia. }
    rewrite Hs. reflexivity.
  - right.
    assert (¬ (0 ≤ n < 20)) as Hr.
    { intros Hr. rewrite to_uint32_nonneg in Hge by (unfold INT_MAX; lia). lia. }
    destruct (Z.eqb_spec n T_SYSCALL) as [->|Hne]; [left|right]; auto.
Qed.

Lemma trapname_total_witness :
  INT_MIN ≤ -1 ≤ INT_MAX ∧
  ((0 ≤ -1 < ARRAY_SIZE excnames
    ∧ excnames !! Z.to_nat (-1) = Some (trapname (-1)))
   ∨ (-1 = T_SYSCALL ∧ trapname (-1) = "System call")
   ∨ (¬ (0 ≤ -1 < ARRAY_SIZE excnames) ∧ -1 ≠ T_SYSCALL
      ∧ trapname (-1) = "(unknown trap)")).
Proof.
  split; [unfold INT_MIN, INT_MAX; lia | apply (trapname_total (-1))].
  unfold INT_MIN, INT_MAX; lia.
Defined.

Example trapname_breakpoint : trapname T_BRKPT = "Breakpoint".
Proof. reflexivity. Qed.

Example trapname_reserved : trapname 15 = "(unknown trap)".
Proof. reflexivity. Qed.

Example trapname_default : trapname 500 = "(unknown trap)".
Proof. reflexivity. Qed.

(** ** Gate table *)

Lemma fixed_namespace_cases n :
  n ∈ fixed_namespace →
  n = 0 ∨ n = 1 ∨ n = 2 ∨ n = 3 ∨ n = 4 ∨ n = 5 ∨ n = 6 ∨ n = 7 ∨ n = 8
  ∨ n = 10 ∨ n = 11 ∨ n = 12 ∨ n = 13 ∨ n = 14
  ∨ n = 16 ∨ n = 17 ∨ n = 18 ∨ n = 19 ∨ n = 48.
Proof.
  unfold fixed_namespace, exception_vectors. simpl.
  rewrite !elem_of_cons, elem_of_nil. unfold T_DIVIDE, T_DEBUG, T_NMI,
    T_BRKPT, T_OFLOW, T_BOUND, T_ILLOP, T_DEVICE, T_DBLFLT, T_TSS, T_SEGNP,
    T_STACK, T_GPFLT, T_PGFLT, T_FPERR, T_ALIGN, T_MCHK, T_SIMDERR, T_SYSCALL.
  tauto.
Qed.

(** Scanning the 256 slots of the built table: a present gate sits at a
    vector of the namespace. *)
Lemma present_gates_scan :
  forallb (fun i : nat =>
             implb (gate_installed (trap_init boot_tables) (Z.of_nat i))
                   (bool_decide (Z.of_nat i ∈ fixed_namespace)))
          (seq 0 256) = true.
Proof. vm_compute. reflexivity. Qed.

Lemma trap_init_idt_length : length (idt (trap_init boot_tables)) = 256%nat.
Proof. vm_compute. reflexivity. Qed.

Lemma gate_installed_namespace n :
  gate_installed (trap_init boot_tables) n = true → n ∈ fixed_namespace.
Proof.
  intros Hg.
  assert (0 ≤ n < 256) as Hr.
  { unfold gate_installed, gate_at in Hg.
    destruct (Z.ltb_spec n 0); [discriminate|].
    destruct (idt (trap_init boot_tables) !! Z.to_nat n) eqn:Hl;
      [|discriminate].
    apply lookup_lt_Some in Hl. rewrite trap_init_idt_length in Hl. lia. }
  pose proof (proj1 (forallb_forall _ _) present_gates_scan (Z.to_nat n))
    as Hs.
  assert (In (Z.to_nat n) (seq 0 256)) as Hin by (apply in_seq; lia).
  specialize (Hs Hin). cbv beta in Hs.
  rewrite Z2Nat.id, Hg in Hs by lia.
  simpl in Hs. exact (bool_decide_eq_true_1 _ Hs).
Qed.

Lemma fixed_namespace_length : length fixed_namespace = 19%nat.
Proof. reflexivity. Qed.

(** C3, against the claim as stated: the builder installs nineteen gates in
    all, eighteen exception vectors and the syscall vector.  Vectors 9 and 15
    get none, and no twenty distinct trap numbers (nineteen exception
    vectors and the syscall vector) all have a gate. *)
Lemma trap_init_nineteen_gates :
  length (filter (fun g => gd_p g = true) (idt (trap_init boot_tables)))
    = 19%nat
  ∧ gate_installed (trap_init boot_tables) 9 = false
  ∧ gate_installed (trap_init boot_tables) 15 = false
  ∧ ¬ (∃ ns : list Z,
         NoDup ns ∧ length ns = 20%nat
         ∧ ∀ n, n ∈ ns → gate_installed (trap_init boot_tables) n = true).
Proof.
  split; [vm_compute; reflexivity|].
  split; [vm_compute; reflexivity|].
  split; [vm_compute; reflexivity|].
  intros (ns & Hnd & Hlen & Hall).
  assert (ns ⊆+ fixed_namespace) as Hsub.
  { apply NoDup_submseteq; [exact Hnd|].
    intros n Hin. apply gate_installed_namespace, Hall, Hin. }
  apply submseteq_length in Hsub.
  rewrite Hlen, fixed_namespace_length in Hsub. lia.
Qed.

(** C3, amended: the namespace is the eighteen numbered exception vectors
    and the syscall vector.  For each of its numbers [trap_init] has exactly
    one [SETGATE] line and leaves a present gate in the table that points at
    the number's own stub with the kernel code selector; the gate's
    privilege level is 3 for the breakpoint and syscall vectors and 0 for
    every other one; no other slot of the table holds a gate; and this is
    the table loaded into the processor. *)
Theorem trap_init_gate_table :
  length exception_vectors = 18%nat
  ∧ NoDup fixed_namespace
  ∧ (∀ n, n ∈ fixed_namespace →
       gates_written n = 1%nat
       ∧ ∃ g, gate_at (trap_init boot_tables) n = Some g
              ∧ gd_p g = true
              ∧ gd_off g = stub_of n
              ∧ gd_sel g = GD_KT
              ∧ gd_dpl g = (if bool_decide (n = T_BRKPT ∨ n = T_SYSCALL)
                            then 3 else 0))
  ∧ (∀ n, gate_installed (trap_init boot_tables) n = true →
          n ∈ fixed_namespace)
  ∧ cpu_idtr (trap_init boot_tables) = Some (idt (trap_init boot_tables)).
Proof.
  split; [reflexivity|].
  split; [apply (bool_decide_eq_true_1 (NoDup fixed_namespace)); vm_compute; reflexivity|].
  split.
  - intros n Hn. apply fixed_namespace_cases in Hn.
    repeat (destruct Hn as [->|Hn]); try subst n;
      (split; [vm_compute; reflexivity|]);
      eexists; (split; [vm_compute; reflexivity|]);
      repeat split.
  - split; [apply gate_installed_namespace | reflexivity].
Qed.

Lemma trap_init_gate_table_witness :
  T_SYSCALL ∈ fixed_namespace
  ∧ gates_written T_SYSCALL = 1%nat
  ∧ ∃ g, gate_at (trap_init boot_tables) T_SYSCALL = Some g
         ∧ gd_p g = true
         ∧ gd_off g = Some trap_48
         ∧ gd_sel g = GD_KT
         ∧ gd_dpl g = 3.
Proof.
  assert (T_SYSCALL ∈ fixed_namespace) as Hin.
  { unfold fixed_namespace. apply elem_of_app. right. apply list_elem_of_singleton. reflexivity. }
  split; [exact Hin|].
  exact (proj1 (proj2 (proj2 trap_init_gate_table)) T_SYSCALL Hin).
Defined.

(** ** Frame printer *)

Section TrapProps.
Context `{Collaborators}.

Ltac run :=
  unfold mbind, M_bind, mret, M_ret, cprintf, read_eflags, rcr2, cld, load,
    call_monitor, call_syscall, call_env_destroy, assert, panic, gets,
    modify;
  cbn.

Lemma log_log ls1 ls2 st : log ls2 (log ls1 st) = log (ls1 ++ ls2) st.
Proof. unfold log. cbn. rewrite <- app_assoc. reflexivity. Qed.


Lemma print_regs_log regs st :
  ∃ ls, print_regs regs st = Ret tt (log ls st).
Proof.
  eexists. unfold print_regs. run. rewrite !log_log. reflexivity.
Qed.

Ltac no_cr2_line Ha :=
  simpl app in Ha;
  repeat (apply elem_of_cons in Ha as [Ha|Ha]; [discriminate Ha|]);
  apply elem_of_nil in Ha; exact Ha.

(** [print_trapframe] returns, appends lines to the console and changes
    nothing else; the fault-address line is among them exactly when the
    pointer printed is [last_tf] and the frame is a page fault. *)
Lemma print_trapframe_log tf st :
  ∃ ls, print_trapframe tf st = Ret tt (log ls st)
        ∧ (shows_cr2 ls ↔
           last_tf st = Some tf ∧ tf_trapno (load_tf tf st) = T_PGFLT).
Proof.
  unfold print_trapframe, print_regs. run.
  case_bool_decide as Hl;
    destruct (Z.eqb_spec (tf_trapno (load_tf tf st)) T_PGFLT) as [Ht|Ht];
    destruct (Z.eqb_spec (Z.land (tf_cs (load_tf tf st)) 3) 0) as [Hc|Hc];
    cbn; eexists; (split; [rewrite !log_log; reflexivity|]);
    (split; [intros [a Ha] | intros [Hl' Ht']]);
    try congruence.
  all: try (exfalso; no_cr2_line Ha).
  all: try (split; [congruence | assumption]).
  all: eexists; simpl app; rewrite !elem_of_cons; tauto.
Qed.

Lemma print_trapframe_ret tf st :
  ∃ ls, print_trapframe tf st = Ret tt (log ls st).
Proof.
  destruct (print_trapframe_log tf st) as (ls & Hp & _). eauto.
Qed.

(** ** Top-level entry *)

(** [cld] leaves the interrupt-enable bit as it was. *)
Lemma cld_keeps_IF fl : Z.land (Z.ldiff fl FL_DF) FL_IF = Z.land fl FL_IF.
Proof.
  apply Z.bits_inj'. intros n Hn.
  rewrite !Z.land_spec, Z.ldiff_spec.
  destruct (Z.eq_dec n 9) as [->|Hne].
  - cbn. rewrite andb_true_r. reflexivity.
  - replace (Z.testbit FL_IF n) with false.
    + rewrite !andb_false_r. reflexivity.
    + symmetry. change FL_IF with (2 ^ 9). apply Z.pow2_bits_false. lia.
Qed.

Lemma cpu_IF_cld st : cpu_IF (cld_state st) = cpu_IF st.
Proof. unfold cpu_IF, cld_state. cbn. apply cld_keeps_IF. Qed.

Lemma trap_entry_IF_set tf st :
  cpu_IF st ≠ 0 →
  trap_entry tf st
  = Stop (Panic "assertion failed: !(read_eflags() & FL_IF)") (cld_state st).
Proof.
  intros Hif. unfold trap_entry. run.
  rewrite cld_keeps_IF. fold (cpu_IF st).
  destruct (Z.eqb_spec (cpu_IF st) 0); [contradiction|]. reflexivity.
Qed.

Lemma trap_entry_kernel tf st :
  cpu_IF st = 0 →
  Z.land (tf_cs (load_tf tf st)) 3 ≠ 3 →
  trap_entry tf st = Ret tf (entered tf st).
Proof.
  intros Hif Hcs. unfold trap_entry. run.
  rewrite cld_keeps_IF. fold (cpu_IF st). rewrite Hif. cbn.
  replace (load_tf tf _) with (load_tf tf st) by (destruct tf; reflexivity).
  destruct (Z.eqb_spec (Z.land (tf_cs (load_tf tf st)) 3) 3);
    [contradiction|]. reflexivity.
Qed.

Lemma trap_entry_user tf st e :
  cpu_IF st = 0 →
  Z.land (tf_cs (load_tf tf st)) 3 = 3 →
  curenv st = Some e →
  trap_entry tf st = Ret (EnvTf e) (entered_user tf e st).
Proof.
  intros Hif Hcs Hcur. unfold trap_entry. run.
  rewrite cld_keeps_IF. fold (cpu_IF st). rewrite Hif. cbn.
  replace (load_tf tf _) with (load_tf tf st) by (destruct tf; reflexivity).
  rewrite Hcs. cbn. rewrite Hcur. cbn.
  replace (load_tf tf _) with (load_tf tf st) by (destruct tf; reflexivity).
  reflexivity.
Qed.

Lemma trap_entry_user_no_curenv tf st :
  cpu_IF st = 0 →
  Z.land (tf_cs (load_tf tf st)) 3 = 3 →
  curenv st = None →
  trap_entry tf st
  = Stop (Panic "assertion failed: curenv") (log [incoming tf] (cld_state st)).
Proof.
  intros Hif Hcs Hcur. unfold trap_entry. run.
  rewrite cld_keeps_IF. fold (cpu_IF st). rewrite Hif. cbn.
  replace (load_tf tf _) with (load_tf tf st) by (destruct tf; reflexivity).
  rewrite Hcs. cbn. rewrite Hcur. cbn. reflexivity.
Qed.

Lemma load_tf_entered tf st : load_tf tf (entered tf st) = load_tf tf st.
Proof. destruct tf; reflexivity. Qed.

Lemma load_tf_entered_user tf e st :
  load_tf (EnvTf e) (entered_user tf e st) = load_tf tf st.
Proof.
  unfold entered_user. cbn. rewrite fn_lookup_insert. reflexivity.
Qed.

Lemma trap_unfold tf st :
  trap tf st
  = match trap_entry tf st with
    | Ret tf' st1 =>
        match trap_dispatch tf' st1 with
        | Ret _ st' => trap_exit st'
        | Stop h st' => Halted h st'
        end
    | Stop h st1 => Halted h st1
    end.
Proof.
  unfold trap, mbind, M_bind. destruct (trap_entry tf st); reflexivity.
Qed.

Lemma final_state_trap_exit st : final_state (trap_exit st) = st.
Proof.
  unfold trap_exit. destruct (curenv st); [|reflexivity].
  case_bool_decide; reflexivity.
Qed.

(** ** Page fault handler *)

Lemma page_fault_handler_kernel tf st :
  Z.land (tf_cs (load_tf tf st)) 3 = 0 →
  page_fault_handler tf st = Stop (Panic "Kernel page fault") st.
Proof.
  intros Hcs. unfold page_fault_handler. run. rewrite Hcs. reflexivity.
Qed.

Lemma page_fault_handler_no_curenv tf st :
  Z.land (tf_cs (load_tf tf st)) 3 ≠ 0 →
  curenv st = None →
  page_fault_handler tf st = Stop NullDeref st.
Proof.
  intros Hcs Hcur. unfold page_fault_handler. run.
  destruct (Z.eqb_spec (Z.land (tf_cs (load_tf tf st)) 3) 0);
    [contradiction|].
  cbn. rewrite Hcur. reflexivity.
Qed.

Lemma page_fault_handler_user tf st e :
  Z.land (tf_cs (load_tf tf st)) 3 ≠ 0 →
  curenv st = Some e →
  let line := user_fault_line (env_id (envs st e)) (cpu_cr2 st)
                              (tf_eip (load_tf tf st)) in
  ∃ ls, print_trapframe tf (log [line] st) = Ret tt (log (line :: ls) st)
        ∧ page_fault_handler tf st
          = Ret tt (env_destroy (Some e) (log (line :: ls) st)).
Proof.
  intros Hcs Hcur line.
  destruct (print_trapframe_ret tf (log [line] st)) as (ls & Hp).
  rewrite log_log in Hp. exists ls. split; [exact Hp|].
  unfold page_fault_handler. run.
  destruct (Z.eqb_spec (Z.land (tf_cs (load_tf tf st)) 3) 0);
    [contradiction|].
  cbn. rewrite Hcur. cbn.
  fold (user_fault_line (env_id (envs st e)) (cpu_cr2 st)
                        (tf_eip (load_tf tf st))).
  fold line. rewrite Hp. cbn. rewrite Hcur. reflexivity.
Qed.

(** ** Syscall bridge *)

Lemma syscall_handler_eq tf st :
  let f := load_tf tf st in
  let r := syscall (reg_eax (tf_regs f)) (reg_edx (tf_regs f))
                   (reg_ecx (tf_regs f)) (reg_ebx (tf_regs f))
                   (reg_edi (tf_regs f)) (reg_esi (tf_regs f)) st in
  syscall_handler tf st
  = Ret tt (store_tf tf (set_reg_eax (to_uint32 r.1) (load_tf tf r.2)) r.2).
Proof.
  intros f r. unfold syscall_handler. run. fold f. fold r.
  destruct r as [v st']. reflexivity.
Qed.

Lemma load_store_tf p f st : load_tf p (store_tf p f st) = f.
Proof.
  destruct p; cbn; [reflexivity|]. rewrite fn_lookup_insert. reflexivity.
Qed.

Lemma same_but_eax_set v f : same_but_eax f (set_reg_eax v f).
Proof. unfold same_but_eax. cbn. repeat split. Qed.

Lemma to_int32_uint32 r : INT_MIN ≤ r ≤ INT_MAX → to_int32 (to_uint32 r) = r.
Proof.
  unfold INT_MIN, INT_MAX, to_int32, to_uint32. intros Hr.
  rewrite Z.mod_mod by lia.
  destruct (Z.lt_ge_cases r 0) as [Hneg|Hpos].
  - replace (r mod 2 ^ 32) with (r + 2 ^ 32).
    + destruct (Z.ltb_spec (r + 2 ^ 32) (2 ^ 31)); lia.
    + apply Z.mod_unique with (q := -1); lia.
  - rewrite Z.mod_small by lia.
    destruct (Z.ltb_spec r (2 ^ 31)); lia.
Qed.

(** ** Dispatcher *)

Lemma trap_dispatch_brkpt tf st :
  tf_trapno (load_tf tf st) = T_BRKPT →
  trap_dispatch tf st = Ret tt (monitor tf st).
Proof. intros Ht. unfold trap_dispatch. run. rewrite Ht. reflexivity. Qed.

Lemma trap_dispatch_pgflt tf st :
  tf_trapno (load_tf tf st) = T_PGFLT →
  trap_dispatch tf st = page_fault_handler tf st.
Proof. intros Ht. unfold trap_dispatch. run. rewrite Ht. reflexivity. Qed.

Lemma trap_dispatch_syscall tf st :
  tf_trapno (load_tf tf st) = T_SYSCALL →
  trap_dispatch tf st = syscall_handler tf st.
Proof. intros Ht. unfold trap_dispatch. run. rewrite Ht. reflexivity. Qed.

Lemma trap_dispatch_unhandled tf st :
  ¬ handled (tf_trapno (load_tf tf st)) →
  ∃ ls, print_trapframe tf st = Ret tt (log ls st)
        ∧ trap_dispatch tf st
          = if tf_cs (load_tf tf st) =? GD_KT
            then Stop (Panic "unhandled trap in kernel") (log ls st)
            else Ret tt (env_destroy (curenv st) (log ls st)).
Proof.
  intros Hh. unfold handled in Hh.
  destruct (print_trapframe_ret tf st) as (ls & Hp).
  exists ls. split; [exact Hp|].
  unfold trap_dispatch. run.
  destruct (Z.eqb_spec (tf_trapno (load_tf tf st)) T_BRKPT); [tauto|].
  destruct (Z.eqb_spec (tf_trapno (load_tf tf st)) T_PGFLT); [tauto|].
  destruct (Z.eqb_spec (tf_trapno (load_tf tf st)) T_SYSCALL); [tauto|].
  rewrite Hp.
  replace (load_tf tf (log ls st)) with (load_tf tf st)
    by (destruct tf; reflexivity).
  destruct (tf_cs (load_tf tf st) =? GD_KT); reflexivity.
Qed.

Lemma handled_dec n : handled n ∨ ¬ handled n.
Proof. unfold handled. lia. Qed.

(** An observation that neither the collaborators nor console output nor a
    store into a frame can change is the same after [trap_dispatch]. *)
Lemma trap_dispatch_keeps {A} (obs : KState → A) :
  keeps obs →
  (∀ ls s, obs (log ls s) = obs s) →
  (∀ p f s, obs (store_tf p f s) = obs s) →
  ∀ tf st, obs (result_state (trap_dispatch tf st)) = obs st.
Proof.
  intros (Hm & Hs & Hd) Hlog Hstore tf st.
  destruct (handled_dec (tf_trapno (load_tf tf st))) as [[Ht|[Ht|Ht]]|Hn].
  - rewrite trap_dispatch_brkpt by exact Ht. cbn. apply Hm.
  - rewrite trap_dispatch_pgflt by exact Ht.
    destruct (Z.eq_dec (Z.land (tf_cs (load_tf tf st)) 3) 0) as [Hc|Hc].
    + rewrite page_fault_handler_kernel by exact Hc. reflexivity.
    + destruct (curenv st) as [e|] eqn:Hcur.
      * destruct (page_fault_handler_user tf st e Hc Hcur) as (ls & _ & ->).
        cbn. rewrite Hd. apply Hlog.
      * rewrite page_fault_handler_no_curenv by assumption. reflexivity.
  - rewrite trap_dispatch_syscall by exact Ht.
    rewrite syscall_handler_eq. cbn. rewrite Hstore. apply Hs.
  - destruct (trap_dispatch_unhandled tf st Hn) as (ls & _ & ->).
    destruct (tf_cs (load_tf tf st) =? GD_KT); cbn.
    + apply Hlog.
    + rewrite Hd. apply Hlog.
Qed.


(** [print_trapframe] as one equation, and its lines for a frame that is
    not a page fault. *)
Lemma print_trapframe_all_lines tf st :
  print_trapframe tf st = Ret tt (log (trapframe_lines tf st) st).
Proof.
  unfold print_trapframe, print_regs, trapframe_lines, regs_lines. run.
  case_bool_decide as Hl;
    destruct (tf_trapno (load_tf tf st) =? T_PGFLT);
    destruct (Z.land (tf_cs (load_tf tf st)) 3 =? 0);
    cbn; rewrite !log_log; reflexivity.
Qed.

Lemma trapframe_lines_unhandled tf st :
  tf_trapno (load_tf tf st) ≠ T_PGFLT →
  trapframe_lines tf st = unhandled_frame_lines tf (load_tf tf st).
Proof.
  intros Ht. unfold trapframe_lines, unhandled_frame_lines.
  destruct (Z.eqb_spec (tf_trapno (load_tf tf st)) T_PGFLT) as [He|_];
    [contradiction|].
  rewrite andb_false_r. reflexivity.
Qed.

Lemma print_trapframe_unhandled tf st :
  ¬ handled (tf_trapno (load_tf tf st)) →
  print_trapframe tf st
  = Ret tt (log (unhandled_frame_lines tf (load_tf tf st)) st).
Proof.
  intros Hn. rewrite print_trapframe_all_lines, trapframe_lines_unhandled.
  - reflexivity.
  - intros Ht. apply Hn. unfold handled. tauto.
Qed.

Lemma trap_dispatch_unhandled_lines tf st :
  ¬ handled (tf_trapno (load_tf tf st)) →
  trap_dispatch tf st
  = if tf_cs (load_tf tf st) =? GD_KT
    then Stop (Panic "unhandled trap in kernel")
              (log (unhandled_frame_lines tf (load_tf tf st)) st)
    else Ret tt (env_destroy (curenv st)
                   (log (unhandled_frame_lines tf (load_tf tf st)) st)).
Proof.
  intros Hn.
  destruct (trap_dispatch_unhandled tf st Hn) as (ls & Hp & Hd).
  rewrite print_trapframe_unhandled in Hp by exact Hn.
  injection Hp as Hp. apply app_inv_head in Hp. subst ls. exact Hd.
Qed.


(** ** The claims on the dispatcher *)

(** C1: a trap with no case in the dispatcher's switch whose saved code
    segment is the kernel code selector: [trap_dispatch] prints the whole
    frame and then panics with "unhandled trap in kernel".  What it prints
    is pinned line by line: the frame's address, the eight registers, [es],
    [ds], the trap number with its name, the error code, the instruction
    pointer, [cs] and the flags, each with the frame's own value, and these
    are on the console at the halt.  [trap] as a whole halts (on this panic
    when interrupts are disabled on entry) and never reaches [env_run]. *)
Theorem kernel_unhandled_trap_halts tf st :
  ¬ handled (tf_trapno (load_tf tf st)) →
  tf_cs (load_tf tf st) = GD_KT →
  let f := load_tf tf st in
  let frame :=
    ([mkPrint "TRAP frame at %p\n" [APtr tf]]
     ++ regs_lines (tf_regs f)
     ++ [ mkPrint "  es   0x----%04x\n" [AInt (tf_es f)];
          mkPrint "  ds   0x----%04x\n" [AInt (tf_ds f)];
          mkPrint "  trap 0x%08x %s\n"
            [AInt (tf_trapno f); AStr (trapname (to_int32 (tf_trapno f)))];
          mkPrint "  err  0x%08x" [AInt (tf_err f)];
          mkPrint "\n" [];
          mkPrint "  eip  0x%08x\n" [AInt (tf_eip f)];
          mkPrint "  cs   0x----%04x\n" [AInt (tf_cs f)];
          mkPrint "  flag 0x%08x\n" [AInt (tf_eflags f)] ])%list in
  print_trapframe tf st = Ret tt (log frame st)
  ∧ trap_dispatch tf st
    = Stop (Panic "unhandled trap in kernel") (log frame st)
  ∧ console (log frame st) = (console st ++ frame)%list
  ∧ (cpu_IF st = 0 →
     trap tf st
     = Halted (Panic "unhandled trap in kernel") (log frame (entered tf st))
     ∧ console (log frame (entered tf st))
       = (console st ++ incoming tf :: frame)%list)
  ∧ (∃ h st', trap tf st = Halted h st')
  ∧ (∀ e st', trap tf st ≠ EnvRun e st').
Proof.
  intros Hn Hcs f frame.
  assert (unhandled_frame_lines tf f = frame) as Hfr.
  { unfold unhandled_frame_lines, frame. fold f. unfold f at 10.
    rewrite Hcs. cbn [negb Z.land GD_KT Pos.land Z.eqb].
    rewrite app_nil_r. reflexivity. }
  assert (trap_dispatch tf st
          = Stop (Panic "unhandled trap in kernel") (log frame st)) as Hd.
  { rewrite trap_dispatch_unhandled_lines by exact Hn.
    fold f. rewrite Hfr. unfold f. rewrite Hcs. reflexivity. }
  assert (cpu_IF st = 0 →
          trap tf st
          = Halted (Panic "unhandled trap in kernel")
                   (log frame (entered tf st))) as Ht.
  { intros Hif.
    assert (Z.land (tf_cs (load_tf tf st)) 3 ≠ 3) as Hk
      by (rewrite Hcs; discriminate).
    pose proof (load_tf_entered tf st) as Hl.
    rewrite trap_unfold, (trap_entry_kernel tf st Hif Hk).
    rewrite trap_dispatch_unhandled_lines by (rewrite Hl; exact Hn).
    rewrite Hl. fold f. rewrite Hfr. unfold f. rewrite Hcs. reflexivity. }
  assert (∃ h st', trap tf st = Halted h st') as Hh.
  { destruct (Z.eq_dec (cpu_IF st) 0) as [Hif|Hif].
    - rewrite (Ht Hif). eauto.
    - rewrite trap_unfold, (trap_entry_IF_set tf st Hif). eauto. }
  split.
  { rewrite print_trapframe_unhandled by exact Hn. fold f. rewrite Hfr.
    reflexivity. }
  split; [exact Hd|]. split; [reflexivity|].
  split.
  { intros Hif. split; [exact (Ht Hif)|].
    cbn [console log entered set_last_tf cld_state set_eflags].
    rewrite <- app_assoc. reflexivity. }
  split; [exact Hh|].
  intros e st' He. destruct Hh as (h & st'' & Hh). congruence.
Qed.


(** ** The claims on the top-level entry *)

(** C2: a trap from user privilege, taken with interrupts disabled while
    [e] is the current environment: before dispatch [trap] copies the whole
    frame into [e]'s [env_tf], which then equals the trapped frame; the
    other environments and the rest of [e] are as they were; dispatch is
    given the pointer to that copy; and resuming [e] from the copy restores
    exactly the trapped frame. *)
Theorem trap_copies_user_frame tf st e :
  Z.land (tf_cs (load_tf tf st)) 3 = 3 →
  cpu_IF st = 0 →
  curenv st = Some e →
  ∃ st1,
    trap_entry tf st = Ret (EnvTf e) st1
    ∧ env_tf (envs st1 e) = load_tf tf st
    ∧ env_id (envs st1 e) = env_id (envs st e)
    ∧ env_status (envs st1 e) = env_status (envs st e)
    ∧ (∀ e', e' ≠ e → envs st1 e' = envs st e')
    ∧ curenv st1 = Some e
    ∧ trap tf st = match trap_dispatch (EnvTf e) st1 with
                   | Ret _ st' => trap_exit st'
                   | Stop h st' => Halted h st'
                   end
    ∧ (env_status (envs st e) = ENV_RUNNING →
       resumed_frame (trap_exit st1) = Some (load_tf tf st)).
Proof.
  intros Hcs Hif Hcur. exists (entered_user tf e st).
  pose proof (trap_entry_user tf st e Hif Hcs Hcur) as He.
  pose proof (load_tf_entered_user tf e st) as Hl.
  assert (env_status (envs (entered_user tf e st) e)
          = env_status (envs st e)) as Hst.
  { unfold entered_user. cbn. rewrite fn_lookup_insert. reflexivity. }
  split; [exact He|]. split; [exact Hl|].
  split.
  { unfold entered_user. cbn. rewrite fn_lookup_insert. reflexivity. }
  split; [exact Hst|].
  split.
  { intros e' Hne. unfold entered_user. cbn.
    rewrite fn_lookup_insert_ne by congruence. reflexivity. }
  split; [exact Hcur|].
  split.
  { rewrite trap_unfold, He. reflexivity. }
  intros Hrun. unfold trap_exit.
  change (curenv (entered_user tf e st)) with (curenv st). rewrite Hcur.
  rewrite bool_decide_eq_true_2 by (rewrite Hst; exact Hrun).
  cbn [resumed_frame]. f_equal. exact Hl.
Qed.

(** C10: for a trap from user privilege (interrupts disabled, [e] current),
    [last_tf] is set after the redirection: when dispatch starts it is the
    pointer to [e]'s [env_tf], not the pointer to the frame on the kernel
    stack, and it is still so when [trap] ends, the collaborators having no
    access to the static variable.  In that state [print_trapframe] shows
    the fault address exactly for a page-fault frame printed through the
    pointer to [e]'s [env_tf]. *)
Theorem last_tf_is_persistent_copy tf st e :
  keeps last_tf →
  Z.land (tf_cs (load_tf tf st)) 3 = 3 →
  cpu_IF st = 0 →
  curenv st = Some e →
  ∃ st1,
    trap_entry tf st = Ret (EnvTf e) st1
    ∧ last_tf st1 = Some (EnvTf e)
    ∧ last_tf st1 ≠ Some KStackTf
    ∧ last_tf (final_state (trap tf st)) = Some (EnvTf e)
    ∧ ∀ p, ∃ ls,
        print_trapframe p st1 = Ret tt (log ls st1)
        ∧ (shows_cr2 ls ↔
           p = EnvTf e ∧ tf_trapno (load_tf p st1) = T_PGFLT).
Proof.
  intros Hk Hcs Hif Hcur. exists (entered_user tf e st).
  pose proof (trap_entry_user tf st e Hif Hcs Hcur) as He.
  split; [exact He|]. split; [reflexivity|]. split; [discriminate|].
  split.
  - rewrite trap_unfold, He.
    pose proof (trap_dispatch_keeps last_tf Hk) as Hd.
    specialize (Hd (fun _ _ => eq_refl)).
    specialize (Hd (fun p f s => ltac:(destruct p; reflexivity))).
    specialize (Hd (EnvTf e) (entered_user tf e st)).
    destruct (trap_dispatch (EnvTf e) (entered_user tf e st)) as [[] s'|h s'];
      cbn in Hd |- *.
    + rewrite final_state_trap_exit. exact Hd.
    + exact Hd.
  - intros p.
    destruct (print_trapframe_log p (entered_user tf e st)) as (ls & Hp & Hc).
    exists ls. split; [exact Hp|]. rewrite Hc.
    change (last_tf (entered_user tf e st)) with (Some (EnvTf e)).
    split; intros [Ha Hb]; (split; [congruence|exact Hb]).
Qed.


(** ** The claims on the syscall bridge and the page fault handler *)

(** C5: [syscall_handler] calls the syscall implementation with the number
    from [eax] and the arguments from [edx], [ecx], [ebx], [edi], [esi] of
    the frame, in this order, and stores the result in the frame's [eax]:
    read back as a signed 32-bit number the slot is the result, and every
    other slot of the frame is as before (the implementation itself being
    one that leaves the frame alone).  The dispatcher takes this path for
    the syscall vector. *)
Theorem syscall_handler_frame tf st :
  let f := load_tf tf st in
  let r := syscall (reg_eax (tf_regs f)) (reg_edx (tf_regs f))
                   (reg_ecx (tf_regs f)) (reg_ebx (tf_regs f))
                   (reg_edi (tf_regs f)) (reg_esi (tf_regs f)) st in
  INT_MIN ≤ r.1 ≤ INT_MAX →
  load_tf tf r.2 = f →
  ∃ st',
    syscall_handler tf st = Ret tt st'
    ∧ (tf_trapno f = T_SYSCALL → trap_dispatch tf st = Ret tt st')
    ∧ st' = store_tf tf (set_reg_eax (to_uint32 r.1) f) r.2
    ∧ to_int32 (reg_eax (tf_regs (load_tf tf st'))) = r.1
    ∧ same_but_eax f (load_tf tf st').
Proof.
  intros f r Hr Hf.
  pose proof (syscall_handler_eq tf st) as He. cbv zeta in He.
  fold f in He. fold r in He. rewrite Hf in He.
  eexists. split; [exact He|].
  split.
  { intros Ht. rewrite trap_dispatch_syscall by exact Ht. exact He. }
  split; [reflexivity|].
  rewrite load_store_tf. split.
  - cbn. apply to_int32_uint32, Hr.
  - apply same_but_eax_set.
Qed.

(** C7: a page fault taken outside kernel privilege while [e] is the
    current environment: the handler logs [e]'s id, the fault address read
    from [cr2] and the faulting instruction pointer, prints the frame, and
    then calls [env_destroy(curenv)]: the state handed to the destruction
    already holds these lines.  The dispatcher takes this path for the
    page-fault vector. *)
Theorem user_page_fault_logs_and_destroys tf st e :
  Z.land (tf_cs (load_tf tf st)) 3 ≠ 0 →
  curenv st = Some e →
  let line := user_fault_line (env_id (envs st e)) (cpu_cr2 st)
                              (tf_eip (load_tf tf st)) in
  ∃ st1,
    print_trapframe tf (log [line] st) = Ret tt st1
    ∧ page_fault_handler tf st = Ret tt (env_destroy (Some e) st1)
    ∧ (tf_trapno (load_tf tf st) = T_PGFLT →
       trap_dispatch tf st = Ret tt (env_destroy (Some e) st1))
    ∧ line ∈ console st1
    ∧ mentions (console st1) (env_id (envs st e))
    ∧ mentions (console st1) (cpu_cr2 st)
    ∧ mentions (console st1) (tf_eip (load_tf tf st)).
Proof.
  intros Hcs Hcur line.
  destruct (page_fault_handler_user tf st e Hcs Hcur) as (ls & Hp & Hh).
  fold line in Hp, Hh.
  exists (log (line :: ls) st).
  assert (line ∈ console (log (line :: ls) st)) as Hin.
  { cbn. apply elem_of_app. right. apply elem_of_cons. left. reflexivity. }
  split; [exact Hp|]. split; [exact Hh|].
  split.
  { intros Ht. rewrite trap_dispatch_pgflt by exact Ht. exact Hh. }
  split; [exact Hin|].
  repeat split; exists line; (split; [exact Hin|]); cbn;
    rewrite !elem_of_cons; tauto.
Qed.

(** C4, amended: a page fault whose frame has the privilege bits of the
    saved code segment at 0: the handler panics with "Kernel page fault" in
    the state it was called in: it does not return, it does not call
    [env_destroy], and it prints nothing: the process id, the fault address
    and the instruction pointer are logged on the user path only.  Through
    [trap] the console gains the "Incoming TRAP frame" line and nothing
    else. *)
Theorem kernel_page_fault_halts tf st :
  Z.land (tf_cs (load_tf tf st)) 3 = 0 →
  page_fault_handler tf st = Stop (Panic "Kernel page fault") st
  ∧ (tf_trapno (load_tf tf st) = T_PGFLT →
     trap_dispatch tf st = Stop (Panic "Kernel page fault") st)
  ∧ (tf_trapno (load_tf tf st) = T_PGFLT → cpu_IF st = 0 →
     trap tf st = Halted (Panic "Kernel page fault") (entered tf st)
     ∧ console (entered tf st) = (console st ++ [incoming tf])%list
     ∧ envs (entered tf st) = envs st
     ∧ curenv (entered tf st) = curenv st).
Proof.
  intros Hcs.
  pose proof (page_fault_handler_kernel tf st Hcs) as Hh.
  split; [exact Hh|]. split.
  - intros Ht. rewrite trap_dispatch_pgflt by exact Ht. exact Hh.
  - intros Ht Hif.
    assert (Z.land (tf_cs (load_tf tf st)) 3 ≠ 3) as Hk
      by (rewrite Hcs; discriminate).
    pose proof (load_tf_entered tf st) as Hl.
    repeat split.
    rewrite trap_unfold, (trap_entry_kernel tf st Hif Hk).
    rewrite trap_dispatch_pgflt by (rewrite Hl; exact Ht).
    rewrite page_fault_handler_kernel by (rewrite Hl; exact Hcs).
    reflexivity.
Qed.

End TrapProps.

(** ** The theorems on the sample inputs *)

#[local] Existing Instance Sample.collab.

Lemma sample_not_handled_gpf cs :
  ¬ handled (tf_trapno (load_tf KStackTf (Sample.state (Sample.frame T_GPFLT cs)))).
Proof. unfold handled. cbn. intros [Hh|[Hh|Hh]]; discriminate Hh. Qed.

Lemma sample_keeps_last_tf : keeps last_tf.
Proof.
  repeat split; intros; try reflexivity.
  cbn. destruct e; reflexivity.
Qed.

Lemma sample_keeps_IF : keeps cpu_IF.
Proof.
  repeat split; intros; try reflexivity.
  cbn. destruct e; reflexivity.
Qed.

Lemma kernel_unhandled_trap_halts_witness :
  ¬ handled (tf_trapno (load_tf KStackTf Sample.kernel_gpf))
  ∧ tf_cs (load_tf KStackTf Sample.kernel_gpf) = GD_KT
  ∧ ∃ frame,
      frame
      = [ mkPrint "TRAP frame at %p\n" [APtr KStackTf];
          mkPrint "  edi  0x%08x\n" [AInt 0];
          mkPrint "  esi  0x%08x\n" [AInt 0];
          mkPrint "  ebp  0x%08x\n" [AInt 0xeebfdfb0];
          mkPrint "  oesp 0x%08x\n" [AInt 0xefffffdc];
          mkPrint "  ebx  0x%08x\n" [AInt 0];
          mkPrint "  edx  0x%08x\n" [AInt 10];
          mkPrint "  ecx  0x%08x\n" [AInt 20];
          mkPrint "  eax  0x%08x\n" [AInt 5];
          mkPrint "  es   0x----%04x\n" [AInt 0x23];
          mkPrint "  ds   0x----%04x\n" [AInt 0x23];
          mkPrint "  trap 0x%08x %s\n" [AInt 13; AStr "General Protection"];
          mkPrint "  err  0x%08x" [AInt 0];
          mkPrint "\n" [];
          mkPrint "  eip  0x%08x\n" [AInt 0x00801234];
          mkPrint "  cs   0x----%04x\n" [AInt 0x08];
          mkPrint "  flag 0x%08x\n" [AInt 0x202] ]
      ∧ print_trapframe KStackTf Sample.kernel_gpf
        = Ret tt (log frame Sample.kernel_gpf)
      ∧ trap_dispatch KStackTf Sample.kernel_gpf
        = Stop (Panic "unhandled trap in kernel")
               (log frame Sample.kernel_gpf)
      ∧ console (log frame Sample.kernel_gpf)
        = (console Sample.kernel_gpf ++ frame)%list
      ∧ (cpu_IF Sample.kernel_gpf = 0 →
         trap KStackTf Sample.kernel_gpf
         = Halted (Panic "unhandled trap in kernel")
                  (log frame (entered KStackTf Sample.kernel_gpf))
         ∧ console (log frame (entered KStackTf Sample.kernel_gpf))
           = (console Sample.kernel_gpf ++ incoming KStackTf :: frame)%list)
      ∧ (∃ h st', trap KStackTf Sample.kernel_gpf = Halted h st')
      ∧ (∀ e st', trap KStackTf Sample.kernel_gpf ≠ EnvRun e st').
Proof.
  split; [apply sample_not_handled_gpf|].
  split; [reflexivity|].
  eexists. split; [reflexivity|].
  exact (kernel_unhandled_trap_halts KStackTf Sample.kernel_gpf
           (sample_not_handled_gpf GD_KT) eq_refl).
Defined.


Lemma trap_copies_user_frame_witness :
  Z.land (tf_cs (load_tf KStackTf Sample.user_brkpt)) 3 = 3
  ∧ cpu_IF Sample.user_brkpt = 0
  ∧ curenv Sample.user_brkpt = Some 0%nat
  ∧ ∃ st1,
      trap_entry KStackTf Sample.user_brkpt = Ret (EnvTf 0) st1
      ∧ env_tf (envs st1 0%nat) = load_tf KStackTf Sample.user_brkpt
      ∧ env_id (envs st1 0%nat) = env_id (envs Sample.user_brkpt 0%nat)
      ∧ env_status (envs st1 0%nat)
        = env_status (envs Sample.user_brkpt 0%nat)
      ∧ (∀ e', e' ≠ 0%nat → envs st1 e' = envs Sample.user_brkpt e')
      ∧ curenv st1 = Some 0%nat
      ∧ trap KStackTf Sample.user_brkpt
        = match trap_dispatch (EnvTf 0) st1 with
          | Ret _ st' => trap_exit st'
          | Stop h st' => Halted h st'
          end
      ∧ (env_status (envs Sample.user_brkpt 0%nat) = ENV_RUNNING →
         resumed_frame (trap_exit st1)
         = Some (load_tf KStackTf Sample.user_brkpt)).
Proof.
  split; [reflexivity|]. split; [reflexivity|]. split; [reflexivity|].
  exact (trap_copies_user_frame KStackTf Sample.user_brkpt 0
           eq_refl eq_refl eq_refl).
Defined.

Lemma last_tf_is_persistent_copy_witness :
  keeps last_tf
  ∧ Z.land (tf_cs (load_tf KStackTf Sample.user_pgflt)) 3 = 3
  ∧ cpu_IF Sample.user_pgflt = 0
  ∧ curenv Sample.user_pgflt = Some 0%nat
  ∧ ∃ st1,
      trap_entry KStackTf Sample.user_pgflt = Ret (EnvTf 0) st1
      ∧ last_tf st1 = Some (EnvTf 0)
      ∧ last_tf st1 ≠ Some KStackTf
      ∧ last_tf (final_state (trap KStackTf Sample.user_pgflt))
        = Some (EnvTf 0)
      ∧ ∀ p, ∃ ls,
          print_trapframe p st1 = Ret tt (log ls st1)
          ∧ (shows_cr2 ls ↔
             p = EnvTf 0 ∧ tf_trapno (load_tf p st1) = T_PGFLT).
Proof.
  split; [exact sample_keeps_last_tf|].
  split; [reflexivity|]. split; [reflexivity|]. split; [reflexivity|].
  exact (last_tf_is_persistent_copy KStackTf Sample.user_pgflt 0
           sample_keeps_last_tf eq_refl eq_refl eq_refl).
Defined.


Lemma syscall_handler_frame_witness :
  INT_MIN ≤ 30 ≤ INT_MAX
  ∧ load_tf KStackTf (syscall 5 10 20 0 0 0 Sample.user_syscall).2
    = load_tf KStackTf Sample.user_syscall
  ∧ ∃ st',
      syscall_handler KStackTf Sample.user_syscall = Ret tt st'
      ∧ (tf_trapno (load_tf KStackTf Sample.user_syscall) = T_SYSCALL →
         trap_dispatch KStackTf Sample.user_syscall = Ret tt st')
      ∧ st' = store_tf KStackTf
                (set_reg_eax (to_uint32 30)
                             (load_tf KStackTf Sample.user_syscall))
                Sample.user_syscall
      ∧ to_int32 (reg_eax (tf_regs (load_tf KStackTf st'))) = 30
      ∧ same_but_eax (load_tf KStackTf Sample.user_syscall)
                     (load_tf KStackTf st').
Proof.
  assert (INT_MIN ≤ 30 ≤ INT_MAX) as Hr by (unfold INT_MIN, INT_MAX; lia).
  split; [exact Hr|]. split; [reflexivity|].
  exact (syscall_handler_frame KStackTf Sample.user_syscall Hr eq_refl).
Defined.

Lemma sample_user_pgflt_cs :
  Z.land (tf_cs (load_tf KStackTf Sample.user_pgflt)) 3 ≠ 0.
Proof. discriminate. Qed.

Lemma user_page_fault_logs_and_destroys_witness :
  Z.land (tf_cs (load_tf KStackTf Sample.user_pgflt)) 3 ≠ 0
  ∧ curenv Sample.user_pgflt = Some 0%nat
  ∧ ∃ st1,
      print_trapframe KStackTf
        (log [user_fault_line 0x1000 0xDEADBEEF 0x00801234]
             Sample.user_pgflt)
      = Ret tt st1
      ∧ page_fault_handler KStackTf Sample.user_pgflt
        = Ret tt (env_destroy (Some 0%nat) st1)
      ∧ (tf_trapno (load_tf KStackTf Sample.user_pgflt) = T_PGFLT →
         trap_dispatch KStackTf Sample.user_pgflt
         = Ret tt (env_destroy (Some 0%nat) st1))
      ∧ user_fault_line 0x1000 0xDEADBEEF 0x00801234 ∈ console st1
      ∧ mentions (console st1) 0x1000
      ∧ mentions (console st1) 0xDEADBEEF
      ∧ mentions (console st1) 0x00801234.
Proof.
  split; [exact sample_user_pgflt_cs|]. split; [reflexivity|].
  exact (user_page_fault_logs_and_destroys KStackTf Sample.user_pgflt 0
           sample_user_pgflt_cs eq_refl).
Defined.

Lemma kernel_page_fault_halts_witness :
  Z.land (tf_cs (load_tf KStackTf Sample.kernel_pgflt)) 3 = 0
  ∧ page_fault_handler KStackTf Sample.kernel_pgflt
    = Stop (Panic "Kernel page fault") Sample.kernel_pgflt
  ∧ (tf_trapno (load_tf KStackTf Sample.kernel_pgflt) = T_PGFLT →
     trap_dispatch KStackTf Sample.kernel_pgflt
     = Stop (Panic "Kernel page fault") Sample.kernel_pgflt)
  ∧ (tf_trapno (load_tf KStackTf Sample.kernel_pgflt) = T_PGFLT →
     cpu_IF Sample.kernel_pgflt = 0 →
     trap KStackTf Sample.kernel_pgflt
     = Halted (Panic "Kernel page fault")
              (entered KStackTf Sample.kernel_pgflt)
     ∧ console (entered KStackTf Sample.kernel_pgflt)
       = (console Sample.kernel_pgflt ++ [incoming KStackTf])%list
     ∧ envs (entered KStackTf Sample.kernel_pgflt)
       = envs Sample.kernel_pgflt
     ∧ curenv (entered KStackTf Sample.kernel_pgflt)
       = curenv Sample.kernel_pgflt).
Proof.
  split; [reflexivity|].
  exact (kernel_page_fault_halts KStackTf Sample.kernel_pgflt eq_refl).
Defined.

(** C4, against the claim as stated: a page fault in the kernel (code
    segment [GD_KT], fault address [0xDEADBEEF], instruction pointer
    [0x00801234], current environment [0x1000]).  The handler halts, and
    what the console holds at the halt is the one line [trap] printed on
    entry: neither the fault address nor the instruction pointer nor the
    environment's id appears in it. *)
Lemma kernel_page_fault_prints_no_diagnostics :
  Z.land (tf_cs (load_tf KStackTf Sample.kernel_pgflt)) 3 = 0
  ∧ tf_trapno (load_tf KStackTf Sample.kernel_pgflt) = T_PGFLT
  ∧ cpu_cr2 Sample.kernel_pgflt = 0xDEADBEEF
  ∧ tf_eip (load_tf KStackTf Sample.kernel_pgflt) = 0x00801234
  ∧ env_id (envs Sample.kernel_pgflt 0%nat) = 0x1000
  ∧ page_fault_handler KStackTf Sample.kernel_pgflt
    = Stop (Panic "Kernel page fault") Sample.kernel_pgflt
  ∧ console Sample.kernel_pgflt = []
  ∧ console (final_state (trap KStackTf Sample.kernel_pgflt))
    = [incoming KStackTf]
  ∧ ¬ mentions (console (final_state (trap KStackTf Sample.kernel_pgflt)))
               0xDEADBEEF
  ∧ ¬ mentions (console (final_state (trap KStackTf Sample.kernel_pgflt)))
               0x00801234
  ∧ ¬ mentions (console (final_state (trap KStackTf Sample.kernel_pgflt)))
               0x1000.
Proof.
  assert (console (final_state (trap KStackTf Sample.kernel_pgflt))
          = [incoming KStackTf]) as Hc by (vm_compute; reflexivity).
  do 7 (split; [reflexivity|]).
  split; [exact Hc|].
  rewrite Hc.
  repeat split; intros (c & Hin & Ha);
    apply list_elem_of_singleton in Hin; subst c; cbn in Ha;
    apply list_elem_of_singleton in Ha; discriminate Ha.
Qed.

(** ** The scenarios of the spec, run on the sample inputs *)

(** Syscall 5 with arguments 10, 20, 0, 0, 0, the implementation returning
    30: the environment is resumed with 30 in [eax] and every other slot
    of its frame as trapped. *)
Example syscall_scenario :
  resumed_frame (trap KStackTf Sample.user_syscall)
  = Some (set_reg_eax 30 (Sample.frame T_SYSCALL Sample.user_cs)).
Proof. vm_compute. reflexivity. Qed.

(** A user page fault at [0xDEADBEEF] with instruction pointer
    [0x00801234]: the environment is destroyed (the sample destruction
    frees it), and the log line carries that address and pointer. *)
Example user_page_fault_scenario :
  user_fault_line 0x1000 0xDEADBEEF 0x00801234
    ∈ console (final_state (trap KStackTf Sample.user_pgflt))
  ∧ env_status (envs (final_state (trap KStackTf Sample.user_pgflt)) 0%nat)
    = ENV_FREE.
Proof.
  split; [|vm_compute; reflexivity].
  apply (bool_decide_eq_true_1 _). vm_compute. reflexivity.
Qed.

(** The same fault taken in the kernel halts and destroys nothing. *)
Example kernel_page_fault_scenario :
  (∃ st', trap KStackTf Sample.kernel_pgflt
          = Halted (Panic "Kernel page fault") st')
  ∧ env_status (envs (final_state (trap KStackTf Sample.kernel_pgflt)) 0%nat)
    = ENV_RUNNING.
Proof.
  split; [eexists; reflexivity | vm_compute; reflexivity].
Qed.

(** A trap that arrives while the processor has interrupts enabled. *)
Example interrupts_enabled_scenario :
  cpu_IF Sample.irq_on = FL_IF
  ∧ trap KStackTf Sample.irq_on
    = Halted (Panic "assertion failed: !(read_eflags() & FL_IF)")
             (cld_state Sample.irq_on).
Proof. split; reflexivity. Qed.

(** The breakpoint round trip: the sample debugger returns at once, and
    the environment is resumed with the frame it trapped with. *)
Example breakpoint_round_trip :
  resumed_frame (trap KStackTf Sample.user_brkpt)
  = Some (Sample.frame T_BRKPT Sample.user_cs).
Proof. vm_compute. reflexivity. Qed.

(** The dispatcher's test for the kernel is equality with [GD_KT]: a
    general protection fault whose saved selector is the kernel data
    selector takes the destroy branch. *)
Example dispatch_compares_with_GD_KT :
  ∃ st1, trap_dispatch KStackTf (Sample.state (Sample.frame T_GPFLT GD_KD))
         = Ret tt (env_destroy (Some 0%nat) st1).
Proof.
  destruct (trap_dispatch_unhandled KStackTf
              (Sample.state (Sample.frame T_GPFLT GD_KD))
              (sample_not_handled_gpf GD_KD)) as (ls & _ & Hd).
  exists (log ls (Sample.state (Sample.frame T_GPFLT GD_KD))). exact Hd.
Qed.

(** * Further properties of the code *)

(** ** Catalog and gate table *)

Lemma to_uint32_to_int32 u : 0 ≤ u < 2 ^ 32 → to_uint32 (to_int32 u) = u.
Proof.
  intros Hu. unfold to_uint32, to_int32. rewrite (Z.mod_small u) by lia.
  destruct (Z.ltb_spec u (2 ^ 31)).
  - apply Z.mod_small. lia.
  - symmetry. apply Z.mod_unique with (q := -1); lia.
Qed.

Lemma to_int32_small u : 0 ≤ u < 2 ^ 31 → to_int32 u = u.
Proof.
  intros Hu. unfold to_int32. rewrite Z.mod_small by lia.
  destruct (Z.ltb_spec u (2 ^ 31)); lia.
Qed.

(** X1: [print_trapframe] passes the frame's unsigned 32-bit trap number to
    [trapname(int)].  Whatever the number, the lookup stays inside the
    table: below 20 it is the table entry, 48 is "System call", and every
    other value, those from 2^31 on (negative as [int]) included, is
    "(unknown trap)". *)
Theorem trapname_of_frame_trapno (u : Z) :
  0 ≤ u < 2 ^ 32 →
  (u < 20 ∧ excnames !! Z.to_nat u = Some (trapname (to_int32 u)))
  ∨ (u = T_SYSCALL ∧ trapname (to_int32 u) = "System call")
  ∨ (20 ≤ u ∧ u ≠ T_SYSCALL ∧ trapname (to_int32 u) = "(unknown trap)").
Proof.
  intros Hu. unfold trapname.
  rewrite to_uint32_to_int32, excnames_size by exact Hu.
  destruct (Z.ltb_spec u 20) as [Hlt|Hge].
  - left. split; [exact Hlt|].
    rewrite to_int32_small by lia.
    destruct (lookup_lt_is_Some_2 excnames (Z.to_nat u)) as [s Hs].
    { change (length excnames) with 20%nat. lia. }
    rewrite Hs. reflexivity.
  - right. destruct (Z.eq_dec u T_SYSCALL) as [->|Hne].
    + left. split; reflexivity.
    + right. split; [exact Hge|]. split; [exact Hne|].
      destruct (Z.eqb_spec (to_int32 u) T_SYSCALL) as [He|_]; [|reflexivity].
      exfalso. apply Hne. rewrite <- (to_uint32_to_int32 u Hu), He.
      reflexivity.
Qed.

Lemma trapname_of_frame_trapno_witness :
  0 ≤ 0xffffffff < 2 ^ 32
  ∧ ((0xffffffff < 20
      ∧ excnames !! Z.to_nat 0xffffffff
        = Some (trapname (to_int32 0xffffffff)))
     ∨ (0xffffffff = T_SYSCALL
        ∧ trapname (to_int32 0xffffffff) = "System call")
     ∨ (20 ≤ 0xffffffff ∧ 0xffffffff ≠ T_SYSCALL
        ∧ trapname (to_int32 0xffffffff) = "(unknown trap)")).
Proof.
  assert (0 ≤ 0xffffffff < 2 ^ 32) as Hu
    by (split; [discriminate | reflexivity]).
  split; [exact Hu | exact (trapname_of_frame_trapno 0xffffffff Hu)].
Defined.

(** X2: every vector that [trap_init] installs a gate for has a name of
    its own in the catalog: never the fallback, and different from the name
    of every other installed vector. *)
Theorem installed_gates_have_names :
  (∀ n, gate_installed (trap_init boot_tables) n = true →
        trapname n ≠ "(unknown trap)")
  ∧ (∀ n m, gate_installed (trap_init boot_tables) n = true →
            gate_installed (trap_init boot_tables) m = true →
            trapname n = trapname m → n = m).
Proof.
  split.
  - intros n Hn. apply gate_installed_namespace, fixed_namespace_cases in Hn.
    repeat (destruct Hn as [->|Hn]); try subst n; discriminate.
  - intros n m Hn Hm.
    apply gate_installed_namespace, fixed_namespace_cases in Hn.
    apply gate_installed_namespace, fixed_namespace_cases in Hm.
    repeat (destruct Hn as [->|Hn]); try subst n;
      repeat (destruct Hm as [->|Hm]); try subst m;
      intros He; try reflexivity; discriminate He.
Qed.

Lemma idt_fold_rows (rows : list (Z * EntryStub * Z)) d :
  idt (foldl (fun d '(vec, stub, dpl) => SETGATE d vec false GD_KT stub dpl)
             d rows)
  = foldl (fun l '(vec, stub, dpl) =>
             <[Z.to_nat vec := mkGate (Some stub) GD_KT false dpl true]> l)
          (idt d) rows.
Proof.
  revert d. induction rows as [|[[vec stub] dpl] rows IH]; intros d;
    [reflexivity|].
  cbn [foldl]. rewrite IH. reflexivity.
Qed.

Lemma idt_trap_init_percpu d : idt (trap_init_percpu d) = idt d.
Proof. reflexivity. Qed.

(** The table [trap_init] leaves, as nineteen stores into the one it was
    given. *)
Lemma idt_trap_init d :
  idt (trap_init d)
  = foldl (fun l '(vec, stub, dpl) =>
             <[Z.to_nat vec := mkGate (Some stub) GD_KT false dpl true]> l)
          (idt d) trap_init_gates.
Proof.
  unfold trap_init. rewrite idt_trap_init_percpu. apply idt_fold_rows.
Qed.

Lemma trap_init_length d : length (idt (trap_init d)) = length (idt d).
Proof.
  rewrite idt_trap_init. cbn [foldl trap_init_gates].
  rewrite !length_insert. reflexivity.
Qed.

Lemma trap_init_lookup_namespace d n :
  length (idt d) = 256%nat →
  n ∈ fixed_namespace →
  idt (trap_init d) !! Z.to_nat n = gate_of n.
Proof.
  intros Hlen Hn. apply fixed_namespace_cases in Hn.
  rewrite idt_trap_init. cbn [foldl trap_init_gates].
  repeat (destruct Hn as [->|Hn]); try subst n;
    repeat (rewrite list_lookup_insert_ne by (vm_compute; lia));
    (rewrite list_lookup_insert_eq
       by (rewrite ?length_insert, Hlen; vm_compute; lia));
    reflexivity.
Qed.

Lemma trap_init_lookup_other d n :
  0 ≤ n → n ∉ fixed_namespace →
  idt (trap_init d) !! Z.to_nat n = idt d !! Z.to_nat n.
Proof.
  intros H0 Hn. unfold fixed_namespace, exception_vectors in Hn.
  cbn [app] in Hn. rewrite !not_elem_of_cons in Hn.
  unfold T_DIVIDE, T_DEBUG, T_NMI, T_BRKPT, T_OFLOW, T_BOUND, T_ILLOP,
    T_DEVICE, T_DBLFLT, T_TSS, T_SEGNP, T_STACK, T_GPFLT, T_PGFLT, T_FPERR,
    T_ALIGN, T_MCHK, T_SIMDERR, T_SYSCALL in Hn.
  rewrite idt_trap_init. cbn [foldl trap_init_gates].
  unfold T_DIVIDE, T_DEBUG, T_NMI, T_BRKPT, T_OFLOW, T_BOUND, T_ILLOP,
    T_DEVICE, T_DBLFLT, T_TSS, T_SEGNP, T_STACK, T_GPFLT, T_PGFLT, T_FPERR,
    T_ALIGN, T_MCHK, T_SIMDERR, T_SYSCALL.
  repeat (rewrite list_lookup_insert_ne by lia). reflexivity.
Qed.

(** Apart from the gate table, what [trap_init] leaves is fixed. *)
Lemma trap_init_record d :
  trap_init d
  = {| idt := idt (trap_init d);
       ts := {| ts_esp0 := KSTACKTOP; ts_ss0 := GD_KD |};
       gdt_tss0 := Some {| sd_type := STS_T32A;
                           sd_lim := sizeof_Taskstate - 1;
                           sd_dpl := 0; sd_s := 0 |};
       cpu_tr := Some GD_TSS0;
       cpu_idtr := Some (idt (trap_init d)) |}.
Proof.
  unfold trap_init.
  generalize (foldl (fun d '(vec, stub, dpl) =>
                       SETGATE d vec false GD_KT stub dpl)
                    d trap_init_gates).
  intros X. reflexivity.
Qed.

(** X3: [trap_init] run on any 256-slot table: the slots of the namespace
    end up holding the same gates as after a boot from the zeroed table,
    whatever they held before; every other slot keeps what it held; and
    running [trap_init] again changes nothing. *)
Theorem trap_init_any_table d :
  length (idt d) = 256%nat →
  (∀ n, n ∈ fixed_namespace →
        gate_at (trap_init d) n = gate_at (trap_init boot_tables) n)
  ∧ (∀ n, n ∉ fixed_namespace → gate_at (trap_init d) n = gate_at d n)
  ∧ trap_init (trap_init d) = trap_init d.
Proof.
  intros Hlen.
  assert (∀ n, n ∈ fixed_namespace → 0 ≤ n) as Hpos.
  { intros n Hn. apply fixed_namespace_cases in Hn. lia. }
  split; [|split].
  - intros n Hn. unfold gate_at.
    destruct (Z.ltb_spec n 0); [reflexivity|].
    rewrite !trap_init_lookup_namespace by (assumption || reflexivity).
    reflexivity.
  - intros n Hn. unfold gate_at.
    destruct (Z.ltb_spec n 0); [reflexivity|].
    apply trap_init_lookup_other; assumption.
  - assert (idt (trap_init (trap_init d)) = idt (trap_init d)) as Hidt.
    { apply list_eq. intros i.
      destruct (decide (Z.of_nat i ∈ fixed_namespace)) as [Hi|Hi].
      - pose proof (trap_init_lookup_namespace (trap_init d) (Z.of_nat i))
          as H1.
        pose proof (trap_init_lookup_namespace d (Z.of_nat i)) as H2.
        rewrite Nat2Z.id in H1, H2.
        rewrite H1, H2; try assumption; [reflexivity|].
        rewrite trap_init_length. exact Hlen.
      - pose proof (trap_init_lookup_other (trap_init d) (Z.of_nat i))
          as H1.
        rewrite Nat2Z.id in H1. apply H1; [lia | exact Hi]. }
    rewrite (trap_init_record (trap_init d)), Hidt.
    symmetry. apply trap_init_record.
Qed.

Lemma trap_init_any_table_witness :
  length (idt Edge.used_tables) = 256%nat
  ∧ (∀ n, n ∈ fixed_namespace →
          gate_at (trap_init Edge.used_tables) n
          = gate_at (trap_init boot_tables) n)
  ∧ (∀ n, n ∉ fixed_namespace →
          gate_at (trap_init Edge.used_tables) n
          = gate_at Edge.used_tables n)
  ∧ trap_init (trap_init Edge.used_tables) = trap_init Edge.used_tables.
Proof.
  assert (length (idt Edge.used_tables) = 256%nat) as Hlen
    by (vm_compute; reflexivity).
  split; [exact Hlen | exact (trap_init_any_table Edge.used_tables Hlen)].
Defined.

(** On the table of [Edge.used_tables]: the stale breakpoint gate is
    replaced, the gate at vector 32 stays. *)
Example trap_init_used_tables :
  gate_at Edge.used_tables T_BRKPT
  = Some (mkGate (Some trap_0) GD_KD true 0 true)
  ∧ gate_at (trap_init Edge.used_tables) T_BRKPT
    = Some (mkGate (Some trap_3) GD_KT false 3 true)
  ∧ gate_at (trap_init Edge.used_tables) 32
    = Some (mkGate (Some trap_0) GD_KT true 0 true).
Proof. repeat split; vm_compute; reflexivity. Qed.

(** ** Frame printer *)

#[local] Remove Hints Sample.collab : typeclass_instances.

Section MoreProps.
Context `{Collaborators}.

Ltac run :=
  unfold mbind, M_bind, mret, M_ret, cprintf, read_eflags, rcr2, cld, load,
    call_monitor, call_syscall, call_env_destroy, assert, panic, gets,
    modify;
  cbn.

(** What [print_trapframe] does, in one equation. *)
Lemma print_trapframe_lines tf st :
  print_trapframe tf st = Ret tt (log (trapframe_lines tf st) st).
Proof.
  unfold print_trapframe, print_regs, trapframe_lines, regs_lines. run.
  case_bool_decide as Hl;
    destruct (tf_trapno (load_tf tf st) =? T_PGFLT);
    destruct (Z.land (tf_cs (load_tf tf st)) 3 =? 0);
    cbn; rewrite !log_log; reflexivity.
Qed.

Lemma land_bit_eqb x k :
  0 ≤ k → (Z.land x (2 ^ k) =? 0) = negb (Z.testbit x k).
Proof.
  intros Hk.
  destruct (Z.testbit x k) eqn:Hb; cbn.
  - apply Z.eqb_neq. intros Hz.
    assert (Z.testbit (Z.land x (2 ^ k)) k = true) as Ht
      by (rewrite Z.land_spec, Hb, Z.pow2_bits_true by lia; reflexivity).
    rewrite Hz, Z.bits_0 in Ht. discriminate Ht.
  - apply Z.eqb_eq. apply Z.bits_inj'. intros n Hn.
    rewrite Z.land_spec, Z.bits_0.
    destruct (Z.eq_dec n k) as [->|Hne].
    + rewrite Hb. reflexivity.
    + rewrite Z.pow2_bits_false by lia. apply andb_false_r.
Qed.

(** X4: [print_trapframe] returns and only adds to the console: the
    frames, the environments, [curenv], [last_tf] and the processor
    registers are as before and the earlier console content is kept.  It
    makes 17 calls of [cprintf], one more when the frame is a page fault
    printed through [last_tf], and two more unless the privilege bits of
    the saved code segment are 0.  The call that prints the error code has
    no line break, so the calls make one line of text less than their
    number: 16 lines, and the same one and two more. *)
Theorem print_trapframe_appends tf st :
  ∃ ls,
    print_trapframe tf st = Ret tt (log ls st)
    ∧ (∀ p, load_tf p (log ls st) = load_tf p st)
    ∧ console (log ls st) = (console st ++ ls)%list
    ∧ length ls
      = (17
         + (if bool_decide (last_tf st = Some tf
                            ∧ tf_trapno (load_tf tf st) = T_PGFLT)
            then 1 else 0)
         + (if bool_decide (Z.land (tf_cs (load_tf tf st)) 3 = 0)%Z
            then 0 else 2))%nat
    ∧ lines_of_text ls
      = (16
         + (if bool_decide (last_tf st = Some tf
                            ∧ tf_trapno (load_tf tf st) = T_PGFLT)
            then 1 else 0)
         + (if bool_decide (Z.land (tf_cs (load_tf tf st)) 3 = 0)%Z
            then 0 else 2))%nat
    ∧ (∀ c, c ∈ ls → line_breaks (fmt c) = 0%nat → fmt c = "  err  0x%08x").
Proof.
  exists (trapframe_lines tf st).
  split; [apply print_trapframe_lines|].
  split; [intros p; destruct p; reflexivity|].
  split; [reflexivity|].
  unfold trapframe_lines, regs_lines.
  destruct (Z.eqb_spec (tf_trapno (load_tf tf st)) T_PGFLT) as [Ht|Ht];
    destruct (Z.eqb_spec (Z.land (tf_cs (load_tf tf st)) 3) 0) as [Hc|Hc];
    repeat case_bool_decide; cbn [andb negb app];
    try (exfalso;
         match goal with
         | Hn : ¬ (_ ∧ _) |- _ => apply Hn; split; congruence
         | Hy : _ ∧ _ |- _ => destruct Hy; congruence
         end);
    (split; [reflexivity|]); (split; [reflexivity|]);
    intros c Hin Hb;
    repeat (apply elem_of_cons in Hin as [->|Hin];
            [first [reflexivity | discriminate Hb]|]);
    apply elem_of_nil in Hin; contradiction.
Qed.

Lemma has_line_existsb f ls :
  has_line f ls ↔ existsb (fun c => String.eqb (fmt c) f) ls = true.
Proof.
  unfold has_line. rewrite existsb_exists. split.
  - intros [a Ha]. exists (mkPrint f a). split.
    + apply list_elem_of_In. exact Ha.
    + apply String.eqb_refl.
  - intros ([f' a] & Hin & Hf). cbn in Hf. apply String.eqb_eq in Hf.
    subst f'. exists a. apply list_elem_of_In. exact Hin.
Qed.

Lemma if_negb {A} (b : bool) (x y : A) :
  (if negb b then x else y) = (if b then y else x).
Proof. destruct b; reflexivity. Qed.

Ltac find_line :=
  apply list_elem_of_In; cbn [In app];
  repeat (first [left; reflexivity | right]).

(** X5: which optional lines [print_trapframe] prints.  The saved stack
    pointer and stack segment are printed exactly when the privilege bits of
    the saved code segment are not 0.  The error code is followed by the
    decoded triple exactly for a page fault, and the triple reads bits 2, 1
    and 0 of the error code as user/kernel, write/read and
    protection/not-present. *)
Theorem print_trapframe_optional_lines tf st :
  ∃ ls,
    print_trapframe tf st = Ret tt (log ls st)
    ∧ (has_line "  esp  0x%08x\n" ls ↔ Z.land (tf_cs (load_tf tf st)) 3 ≠ 0)
    ∧ (has_line "  ss   0x----%04x\n" ls
       ↔ Z.land (tf_cs (load_tf tf st)) 3 ≠ 0)
    ∧ (Z.land (tf_cs (load_tf tf st)) 3 ≠ 0 →
       mkPrint "  esp  0x%08x\n" [AInt (tf_esp (load_tf tf st))] ∈ ls
       ∧ mkPrint "  ss   0x----%04x\n" [AInt (tf_ss (load_tf tf st))] ∈ ls)
    ∧ (has_line " [%s, %s, %s]\n" ls ↔ tf_trapno (load_tf tf st) = T_PGFLT)
    ∧ (tf_trapno (load_tf tf st) = T_PGFLT →
       mkPrint " [%s, %s, %s]\n"
         [AStr (if Z.testbit (tf_err (load_tf tf st)) 2
                then "user" else "kernel");
          AStr (if Z.testbit (tf_err (load_tf tf st)) 1
                then "write" else "read");
          AStr (if Z.testbit (tf_err (load_tf tf st)) 0
                then "protection" else "not-present")] ∈ ls).
Proof.
  exists (trapframe_lines tf st).
  split; [apply print_trapframe_lines|].
  rewrite !has_line_existsb.
  unfold trapframe_lines, regs_lines.
  rewrite (land_bit_eqb _ 2), (land_bit_eqb _ 1), (land_bit_eqb _ 0) by lia.
  rewrite !if_negb.
  destruct (Z.eqb_spec (tf_trapno (load_tf tf st)) T_PGFLT) as [Ht|Ht];
    destruct (Z.eqb_spec (Z.land (tf_cs (load_tf tf st)) 3) 0) as [Hc|Hc];
    destruct (bool_decide (Some tf = last_tf st));
    cbn [andb negb];
    (split; [vm_compute; intuition congruence|]);
    (split; [vm_compute; intuition congruence|]);
    (split; [intros Hu; try contradiction; split; find_line|]);
    (split; [vm_compute; intuition congruence|]);
    intros Hp; try contradiction; find_line.
Qed.

(** ** Dispatcher *)

(** A property of the kernel state that the collaborators, console output
    and stores into a frame all keep holds after [trap_dispatch]. *)
Lemma trap_dispatch_inv (P : KState → Prop) :
  preserves P →
  (∀ ls s, P s → P (log ls s)) →
  (∀ p f s, P s → P (store_tf p f s)) →
  ∀ tf st, P st → P (result_state (trap_dispatch tf st)).
Proof.
  intros (Hm & Hs & Hd) Hlog Hstore tf st HP.
  destruct (handled_dec (tf_trapno (load_tf tf st))) as [[Ht|[Ht|Ht]]|Hn].
  - rewrite trap_dispatch_brkpt by exact Ht. cbn. apply Hm, HP.
  - rewrite trap_dispatch_pgflt by exact Ht.
    destruct (Z.eq_dec (Z.land (tf_cs (load_tf tf st)) 3) 0) as [Hc|Hc].
    + rewrite page_fault_handler_kernel by exact Hc. exact HP.
    + destruct (curenv st) as [e|] eqn:Hcur.
      * destruct (page_fault_handler_user tf st e Hc Hcur) as (ls & _ & ->).
        cbn. apply Hd, Hlog, HP.
      * rewrite page_fault_handler_no_curenv by assumption. exact HP.
  - rewrite trap_dispatch_syscall by exact Ht.
    rewrite syscall_handler_eq. cbn. apply Hstore, Hs, HP.
  - destruct (trap_dispatch_unhandled tf st Hn) as (ls & _ & ->).
    destruct (tf_cs (load_tf tf st) =? GD_KT); cbn.
    + apply Hlog, HP.
    + apply Hd, Hlog, HP.
Qed.

(** X6: when [trap_dispatch] panics.  It does so in two cases and no
    other: a page fault whose saved code segment has privilege bits 0
    ("Kernel page fault", nothing printed, state untouched), and a trap
    number without a case in the switch whose saved code segment is
    [GD_KT] ("unhandled trap in kernel", after the frame was printed).  A
    breakpoint or a system call never makes it panic. *)
Theorem trap_dispatch_panics_iff tf st msg st' :
  trap_dispatch tf st = Stop (Panic msg) st'
  ↔ (tf_trapno (load_tf tf st) = T_PGFLT
     ∧ Z.land (tf_cs (load_tf tf st)) 3 = 0
     ∧ msg = "Kernel page fault" ∧ st' = st)
    ∨ (¬ handled (tf_trapno (load_tf tf st))
       ∧ tf_cs (load_tf tf st) = GD_KT
       ∧ msg = "unhandled trap in kernel"
       ∧ print_trapframe tf st = Ret tt st').
Proof.
  destruct (handled_dec (tf_trapno (load_tf tf st))) as [[Ht|[Ht|Ht]]|Hn].
  - rewrite trap_dispatch_brkpt by exact Ht. unfold handled. rewrite Ht.
    split; [discriminate|].
    intros [(Hp & _)|(Hh & _)]; [discriminate Hp | tauto].
  - rewrite trap_dispatch_pgflt by exact Ht.
    destruct (Z.eq_dec (Z.land (tf_cs (load_tf tf st)) 3) 0) as [Hc|Hc].
    + rewrite page_fault_handler_kernel by exact Hc. split.
      * intros Hs. injection Hs as <- <-. left. tauto.
      * intros [(_ & _ & -> & ->)|(Hh & _)]; [reflexivity|].
        exfalso. apply Hh. unfold handled. tauto.
    + split.
      * destruct (curenv st) as [e|] eqn:Hcur.
        -- destruct (page_fault_handler_user tf st e Hc Hcur)
             as (ls & _ & ->). discriminate.
        -- rewrite page_fault_handler_no_curenv by assumption. discriminate.
      * intros [(_ & Hz & _)|(Hh & _)]; [contradiction|].
        exfalso. apply Hh. unfold handled. tauto.
  - rewrite trap_dispatch_syscall by exact Ht.
    rewrite syscall_handler_eq. unfold handled. rewrite Ht.
    split; [discriminate|].
    intros [(Hp & _)|(Hh & _)]; [discriminate Hp | tauto].
  - destruct (trap_dispatch_unhandled tf st Hn) as (ls & Hp & ->).
    rewrite Hp.
    destruct (Z.eqb_spec (tf_cs (load_tf tf st)) GD_KT) as [Hk|Hk]; split.
    + intros Hs. injection Hs as <- <-. right. tauto.
    + intros [(Ht & _)|(_ & _ & -> & Hr)].
      * exfalso. apply Hn. unfold handled. tauto.
      * injection Hr as <-. reflexivity.
    + discriminate.
    + intros [(Ht & _)|(_ & Hk' & _)]; [|contradiction].
      exfalso. apply Hn. unfold handled. tauto.
Qed.

(** ** Top-level entry *)

(** An observation that the collaborators, console output, stores into a
    frame and the update of [last_tf] leave alone is at the end of [trap]
    what it was after [cld]. *)
Lemma trap_final_obs {A} (obs : KState → A) :
  keeps obs →
  (∀ ls s, obs (log ls s) = obs s) →
  (∀ p f s, obs (store_tf p f s) = obs s) →
  (∀ p s, obs (set_last_tf p s) = obs s) →
  ∀ tf st, obs (final_state (trap tf st)) = obs (cld_state st).
Proof.
  intros Hk Hlog Hstore Hlast tf st.
  pose proof (trap_dispatch_keeps obs Hk Hlog Hstore) as Hd.
  rewrite trap_unfold.
  destruct (Z.eq_dec (cpu_IF st) 0) as [Hif|Hif].
  2:{ rewrite (trap_entry_IF_set tf st Hif). reflexivity. }
  destruct (Z.eq_dec (Z.land (tf_cs (load_tf tf st)) 3) 3) as [Hcs|Hcs].
  - destruct (curenv st) as [e|] eqn:Hcur.
    + rewrite (trap_entry_user tf st e Hif Hcs Hcur).
      specialize (Hd (EnvTf e) (entered_user tf e st)).
      assert (obs (entered_user tf e st) = obs (cld_state st)) as He.
      { unfold entered_user. rewrite Hlast, Hstore, Hlog. reflexivity. }
      destruct (trap_dispatch (EnvTf e) (entered_user tf e st))
        as [[] s'|h s']; cbn in Hd |- *;
        rewrite ?final_state_trap_exit, Hd; exact He.
    + rewrite (trap_entry_user_no_curenv tf st Hif Hcs Hcur). cbn.
      apply Hlog.
  - rewrite (trap_entry_kernel tf st Hif Hcs).
    specialize (Hd tf (entered tf st)).
    assert (obs (entered tf st) = obs (cld_state st)) as He.
    { unfold entered. rewrite Hlast, Hlog. reflexivity. }
    destruct (trap_dispatch tf (entered tf st)) as [[] s'|h s'];
      cbn in Hd |- *;
      rewrite ?final_state_trap_exit, Hd; exact He.
Qed.

Lemma trap_exit_EnvRun st e st' :
  trap_exit st = EnvRun e st' →
  st' = st ∧ curenv st = Some e ∧ env_status (envs st e) = ENV_RUNNING.
Proof.
  unfold trap_exit. destruct (curenv st) as [e0|]; [|discriminate].
  case_bool_decide as Hs; [|discriminate].
  intros He. injection He as <- <-. tauto.
Qed.

(** X7: [trap] ends in [env_run] only for an environment that is then
    [curenv] and [ENV_RUNNING], and only if the processor had interrupts
    disabled on entry. *)
Theorem trap_resumes_only_running_curenv tf st e st' :
  trap tf st = EnvRun e st' →
  cpu_IF st = 0
  ∧ curenv st' = Some e
  ∧ env_status (envs st' e) = ENV_RUNNING.
Proof.
  intros Hr. rewrite trap_unfold in Hr. split.
  - destruct (Z.eq_dec (cpu_IF st) 0) as [Hif|Hif]; [exact Hif|].
    rewrite (trap_entry_IF_set tf st Hif) in Hr. discriminate Hr.
  - destruct (trap_entry tf st) as [tf' st1|h st1]; [|discriminate Hr].
    destruct (trap_dispatch tf' st1) as [[] st2|h st2]; [|discriminate Hr].
    apply trap_exit_EnvRun in Hr as (-> & Hc & Hs). tauto.
Qed.

(** X8: taken while no environment is current, a trap never resumes
    anything: [trap] halts, on [assert(curenv)] for a trap from user
    privilege, and otherwise in dispatch or on the assertion that follows
    it; the collaborators being such that they make no environment current
    when none is. *)
Theorem trap_without_curenv_halts tf st :
  preserves (fun s => curenv s = None) →
  curenv st = None →
  ∃ h st', trap tf st = Halted h st'.
Proof.
  intros Hp Hcur. rewrite trap_unfold.
  destruct (Z.eq_dec (cpu_IF st) 0) as [Hif|Hif].
  2:{ rewrite (trap_entry_IF_set tf st Hif). eauto. }
  destruct (Z.eq_dec (Z.land (tf_cs (load_tf tf st)) 3) 3) as [Hcs|Hcs].
  { rewrite (trap_entry_user_no_curenv tf st Hif Hcs Hcur). eauto. }
  rewrite (trap_entry_kernel tf st Hif Hcs).
  pose proof (trap_dispatch_inv (fun s => curenv s = None) Hp) as Hd.
  specialize (Hd (fun _ _ Hs => Hs)).
  specialize (Hd (fun p f s Hs => ltac:(destruct p; exact Hs))).
  specialize (Hd tf (entered tf st) Hcur).
  destruct (trap_dispatch tf (entered tf st)) as [[] s'|h s']; cbn in Hd.
  - unfold trap_exit. rewrite Hd. eauto.
  - eauto.
Qed.

(** X9: a trap from user privilege while [curenv] is NULL fails
    [assert(curenv)]: at the halt the console has gained the "Incoming TRAP
    frame" line, no environment's saved frame has been written and
    [last_tf] has not been updated. *)
Theorem user_trap_without_curenv tf st :
  Z.land (tf_cs (load_tf tf st)) 3 = 3 →
  cpu_IF st = 0 →
  curenv st = None →
  ∃ st', trap tf st = Halted (Panic "assertion failed: curenv") st'
         ∧ console st' = (console st ++ [incoming tf])%list
         ∧ envs st' = envs st
         ∧ kstack_tf st' = kstack_tf st
         ∧ last_tf st' = last_tf st.
Proof.
  intros Hcs Hif Hcur. exists (log [incoming tf] (cld_state st)).
  rewrite trap_unfold, (trap_entry_user_no_curenv tf st Hif Hcs Hcur).
  repeat split.
Qed.

(** ** A trap from user privilege, from entry to resume *)

(** X10: a system call from user privilege, start to end.  With [e] the
    current environment, the syscall implementation returning an [int32_t]
    and leaving [e] current, running and with its saved frame as it found
    it: [trap] ends in [env_run(e)], and the frame [e] is resumed with is
    the trapped frame with the result in [eax] and every other slot as
    trapped.  The result is stored in [e]'s saved frame: the frame on the
    kernel stack and the other environments are as the implementation left
    them. *)
Theorem user_syscall_round_trip tf st e :
  let f := load_tf tf st in
  let r := syscall (reg_eax (tf_regs f)) (reg_edx (tf_regs f))
                   (reg_ecx (tf_regs f)) (reg_ebx (tf_regs f))
                   (reg_edi (tf_regs f)) (reg_esi (tf_regs f))
                   (entered_user tf e st) in
  Z.land (tf_cs f) 3 = 3 →
  tf_trapno f = T_SYSCALL →
  cpu_IF st = 0 →
  curenv st = Some e →
  INT_MIN ≤ r.1 ≤ INT_MAX →
  curenv r.2 = Some e →
  env_status (envs r.2 e) = ENV_RUNNING →
  env_tf (envs r.2 e) = f →
  ∃ st',
    trap tf st = EnvRun e st'
    ∧ resumed_frame (trap tf st) = Some (set_reg_eax (to_uint32 r.1) f)
    ∧ to_int32 (reg_eax (tf_regs (env_tf (envs st' e)))) = r.1
    ∧ same_but_eax f (env_tf (envs st' e))
    ∧ kstack_tf st' = kstack_tf r.2
    ∧ (∀ e', e' ≠ e → envs st' e' = envs r.2 e').
Proof.
  intros f r Hcs Ht Hif Hcur Hr Hc2 Hs2 Hf2.
  pose proof (load_tf_entered_user tf e st) as Hl. fold f in Hl.
  pose proof (syscall_handler_eq (EnvTf e) (entered_user tf e st)) as Hh.
  cbv zeta in Hh. rewrite Hl in Hh. fold r in Hh.
  change (load_tf (EnvTf e) r.2) with (env_tf (envs r.2 e)) in Hh.
  rewrite Hf2 in Hh.
  set (st' := store_tf (EnvTf e) (set_reg_eax (to_uint32 r.1) f) r.2) in Hh.
  assert (env_tf (envs st' e) = set_reg_eax (to_uint32 r.1) f) as Hnew
    by apply (load_store_tf (EnvTf e)).
  assert (trap tf st = EnvRun e st') as Htrap.
  { rewrite trap_unfold, (trap_entry_user tf st e Hif Hcs Hcur).
    rewrite trap_dispatch_syscall by (rewrite Hl; exact Ht).
    rewrite Hh. unfold trap_exit.
    change (curenv st') with (curenv r.2). rewrite Hc2.
    rewrite bool_decide_eq_true_2; [reflexivity|].
    subst st'. cbn. rewrite fn_lookup_insert. exact Hs2. }
  exists st'. split; [exact Htrap|].
  split; [rewrite Htrap; cbn [resumed_frame]; f_equal; exact Hnew|].
  split; [rewrite Hnew; cbn; apply to_int32_uint32, Hr|].
  split; [rewrite Hnew; apply same_but_eax_set|].
  split; [reflexivity|].
  intros e' Hne. subst st'. cbn.
  rewrite fn_lookup_insert_ne by congruence. reflexivity.
Qed.

(** X11: a page fault from user privilege, start to end.  Through [trap]
    the frame printed is the one [last_tf] points to, so the diagnostics
    that precede the destruction of [e] hold, besides the "Incoming TRAP
    frame" line and the line with [e]'s id, the fault address and the
    instruction pointer, the printer's own line with the fault address read
    from [cr2]. *)
Theorem user_page_fault_shows_cr2 tf st e :
  Z.land (tf_cs (load_tf tf st)) 3 = 3 →
  tf_trapno (load_tf tf st) = T_PGFLT →
  cpu_IF st = 0 →
  curenv st = Some e →
  ∃ st1,
    trap tf st = trap_exit (env_destroy (Some e) st1)
    ∧ incoming tf ∈ console st1
    ∧ user_fault_line (env_id (envs st e)) (cpu_cr2 st)
                      (tf_eip (load_tf tf st)) ∈ console st1
    ∧ mkPrint "  cr2  0x%08x\n" [AInt (cpu_cr2 st)] ∈ console st1
    ∧ env_tf (envs st1 e) = load_tf tf st.
Proof.
  intros Hcs Ht Hif Hcur.
  pose proof (load_tf_entered_user tf e st) as Hl.
  assert (Z.land (tf_cs (load_tf (EnvTf e) (entered_user tf e st))) 3 ≠ 0)
    as Hu by (rewrite Hl, Hcs; discriminate).
  destruct (page_fault_handler_user (EnvTf e) (entered_user tf e st) e Hu Hcur)
    as (ls & Hp & Hh).
  cbv zeta in Hp, Hh. rewrite Hl in Hp, Hh.
  set (line := user_fault_line (env_id (envs (entered_user tf e st) e))
                 (cpu_cr2 (entered_user tf e st)) (tf_eip (load_tf tf st)))
    in Hp, Hh.
  assert (line = user_fault_line (env_id (envs st e)) (cpu_cr2 st)
                                 (tf_eip (load_tf tf st))) as Hline.
  { subst line. unfold entered_user. cbn. rewrite fn_lookup_insert.
    reflexivity. }
  rewrite print_trapframe_lines in Hp. rewrite log_log in Hp.
  injection Hp as Hls.
  assert (ls = trapframe_lines (EnvTf e) (log [line] (entered_user tf e st)))
    as Hls'.
  { apply app_inv_head in Hls. injection Hls as Hx. symmetry. exact Hx. }
  exists (log (line :: ls) (entered_user tf e st)).
  split.
  { rewrite trap_unfold, (trap_entry_user tf st e Hif Hcs Hcur).
    rewrite trap_dispatch_pgflt by (rewrite Hl; exact Ht).
    rewrite Hh. reflexivity. }
  split.
  { cbn. rewrite !elem_of_app, !elem_of_cons. tauto. }
  split.
  { rewrite <- Hline. cbn. rewrite !elem_of_app, !elem_of_cons. tauto. }
  split.
  { cbn [console log]. apply elem_of_app. right. apply elem_of_cons. right.
    rewrite Hls'. unfold trapframe_lines.
    change (load_tf (EnvTf e) (log [line] (entered_user tf e st)))
      with (load_tf (EnvTf e) (entered_user tf e st)).
    rewrite Hl, Ht.
    change (last_tf (log [line] (entered_user tf e st)))
      with (Some (EnvTf e)).
    rewrite bool_decide_eq_true_2 by reflexivity.
    cbn [andb Z.eqb T_PGFLT Pos.eqb].
    rewrite !elem_of_app, !elem_of_cons.
    right. right. right. left. left. reflexivity. }
  exact Hl.
Qed.

(** X12: a breakpoint from user privilege, start to end.  The debugger is
    entered with the pointer to [e]'s saved frame, after [trap] has printed
    its one line; [trap_dispatch] itself prints nothing, destroys nothing
    and does not panic.  When the debugger leaves [e] current and running,
    [trap] resumes [e] with the frame as the debugger left it. *)
Theorem user_breakpoint_resumes tf st e :
  Z.land (tf_cs (load_tf tf st)) 3 = 3 →
  tf_trapno (load_tf tf st) = T_BRKPT →
  cpu_IF st = 0 →
  curenv st = Some e →
  let st2 := monitor (EnvTf e) (entered_user tf e st) in
  trap tf st = trap_exit st2
  ∧ console (entered_user tf e st) = (console st ++ [incoming tf])%list
  ∧ (curenv st2 = Some e → env_status (envs st2 e) = ENV_RUNNING →
     trap tf st = EnvRun e st2
     ∧ resumed_frame (trap tf st) = Some (env_tf (envs st2 e))).
Proof.
  intros Hcs Ht Hif Hcur st2.
  pose proof (load_tf_entered_user tf e st) as Hl.
  assert (trap tf st = trap_exit st2) as Htrap.
  { rewrite trap_unfold, (trap_entry_user tf st e Hif Hcs Hcur).
    rewrite trap_dispatch_brkpt by (rewrite Hl; exact Ht). reflexivity. }
  split; [exact Htrap|]. split; [reflexivity|].
  intros Hc2 Hs2.
  assert (trap tf st = EnvRun e st2) as Hrun.
  { rewrite Htrap. unfold trap_exit. rewrite Hc2.
    rewrite bool_decide_eq_true_2 by exact Hs2. reflexivity. }
  split; [exact Hrun|]. rewrite Hrun. reflexivity.
Qed.

(** ** What [trap] and the syscall bridge leave alone *)

Lemma ldiff_land_same a b : Z.land (Z.ldiff a b) b = 0.
Proof.
  apply Z.bits_inj'. intros n Hn.
  rewrite Z.land_spec, Z.ldiff_spec, Z.bits_0.
  destruct (Z.testbit a n), (Z.testbit b n); reflexivity.
Qed.

(** X13: of the processor's flags, [trap] changes the direction flag and
    no other: with collaborators that leave EFLAGS alone, EFLAGS at the end
    of every run, resumed or halted, is EFLAGS on entry with [FL_DF]
    cleared. *)
Theorem trap_clears_only_DF tf st :
  keeps cpu_eflags →
  cpu_eflags (final_state (trap tf st)) = Z.ldiff (cpu_eflags st) FL_DF
  ∧ Z.land (cpu_eflags (final_state (trap tf st))) FL_DF = 0.
Proof.
  intros Hk.
  assert (cpu_eflags (final_state (trap tf st))
          = Z.ldiff (cpu_eflags st) FL_DF) as He.
  { rewrite (trap_final_obs cpu_eflags Hk); [reflexivity|..].
    - intros ls s. reflexivity.
    - intros p f s. destruct p; reflexivity.
    - intros p s. reflexivity. }
  split; [exact He|]. rewrite He. apply ldiff_land_same.
Qed.

(** X14: [syscall_handler] writes through [tf] and nowhere else: compared
    with the state the syscall implementation returned, every frame behind
    another pointer, every environment's id and status, [curenv],
    [last_tf], the console and the processor registers are the same. *)
Theorem syscall_handler_writes_only_tf tf st :
  let f := load_tf tf st in
  let r := syscall (reg_eax (tf_regs f)) (reg_edx (tf_regs f))
                   (reg_ecx (tf_regs f)) (reg_ebx (tf_regs f))
                   (reg_edi (tf_regs f)) (reg_esi (tf_regs f)) st in
  ∃ st',
    syscall_handler tf st = Ret tt st'
    ∧ (∀ p, p ≠ tf → load_tf p st' = load_tf p r.2)
    ∧ (∀ e, env_id (envs st' e) = env_id (envs r.2 e)
            ∧ env_status (envs st' e) = env_status (envs r.2 e))
    ∧ curenv st' = curenv r.2
    ∧ last_tf st' = last_tf r.2
    ∧ console st' = console r.2
    ∧ cpu_eflags st' = cpu_eflags r.2
    ∧ cpu_cr2 st' = cpu_cr2 r.2.
Proof.
  intros f r.
  pose proof (syscall_handler_eq tf st) as Hh. cbv zeta in Hh.
  fold f in Hh. fold r in Hh.
  eexists. split; [exact Hh|].
  split.
  { intros p Hp. destruct tf as [|e], p as [|e']; cbn; try congruence.
    rewrite fn_lookup_insert_ne by congruence. reflexivity. }
  split.
  { intros e. destruct tf as [|e0]; cbn; [tauto|].
    destruct (decide (e0 = e)) as [->|Hne].
    - rewrite fn_lookup_insert. cbn. tauto.
    - rewrite fn_lookup_insert_ne by exact Hne. tauto. }
  destruct tf; repeat split.
Qed.

End MoreProps.

#[local] Existing Instance Sample.collab.

(** ** The further theorems on sample inputs *)

Lemma trap_resumes_only_running_curenv_witness :
  trap KStackTf Sample.user_brkpt
  = EnvRun 0 (entered_user KStackTf 0 Sample.user_brkpt)
  ∧ cpu_IF Sample.user_brkpt = 0
  ∧ curenv (entered_user KStackTf 0 Sample.user_brkpt) = Some 0%nat
  ∧ env_status (envs (entered_user KStackTf 0 Sample.user_brkpt) 0%nat)
    = ENV_RUNNING.
Proof.
  assert (trap KStackTf Sample.user_brkpt
          = EnvRun 0 (entered_user KStackTf 0 Sample.user_brkpt)) as Hr
    by reflexivity.
  split; [exact Hr|].
  exact (trap_resumes_only_running_curenv KStackTf Sample.user_brkpt 0 _ Hr).
Defined.

Lemma edge_preserves_no_curenv :
  preserves (H := Edge.collab) (fun s => curenv s = None).
Proof.
  repeat split; intros; try assumption.
  cbn. destruct e as [e|]; [|assumption]. cbn.
  rewrite bool_decide_eq_false_2; [assumption | congruence].
Qed.

Lemma trap_without_curenv_halts_witness :
  preserves (H := Edge.collab) (fun s => curenv s = None)
  ∧ curenv (Edge.no_curenv (Sample.frame T_BRKPT GD_KT)) = None
  ∧ ∃ h st',
      trap (H := Edge.collab) KStackTf
           (Edge.no_curenv (Sample.frame T_BRKPT GD_KT))
      = Halted h st'.
Proof.
  split; [exact edge_preserves_no_curenv|]. split; [reflexivity|].
  exact (trap_without_curenv_halts (H := Edge.collab) KStackTf
           (Edge.no_curenv (Sample.frame T_BRKPT GD_KT))
           edge_preserves_no_curenv eq_refl).
Defined.

(** A breakpoint in the kernel while no environment is current: the
    debugger returns, and the assertion after dispatch fails. *)
Example kernel_breakpoint_without_curenv :
  ∃ st', trap (H := Edge.collab) KStackTf
              (Edge.no_curenv (Sample.frame T_BRKPT GD_KT))
         = Halted (Panic "assertion failed: curenv && curenv->env_status == ENV_RUNNING") st'.
Proof. eexists. reflexivity. Qed.

Lemma user_trap_without_curenv_witness :
  Z.land (tf_cs (load_tf KStackTf
                   (Edge.no_curenv (Sample.frame T_SYSCALL Sample.user_cs))))
         3 = 3
  ∧ cpu_IF (Edge.no_curenv (Sample.frame T_SYSCALL Sample.user_cs)) = 0
  ∧ curenv (Edge.no_curenv (Sample.frame T_SYSCALL Sample.user_cs)) = None
  ∧ ∃ st',
      trap KStackTf (Edge.no_curenv (Sample.frame T_SYSCALL Sample.user_cs))
      = Halted (Panic "assertion failed: curenv") st'
      ∧ console st'
        = (console (Edge.no_curenv (Sample.frame T_SYSCALL Sample.user_cs))
           ++ [incoming KStackTf])%list
      ∧ envs st'
        = envs (Edge.no_curenv (Sample.frame T_SYSCALL Sample.user_cs))
      ∧ kstack_tf st'
        = kstack_tf (Edge.no_curenv (Sample.frame T_SYSCALL Sample.user_cs))
      ∧ last_tf st'
        = last_tf (Edge.no_curenv (Sample.frame T_SYSCALL Sample.user_cs)).
Proof.
  split; [reflexivity|]. split; [reflexivity|]. split; [reflexivity|].
  exact (user_trap_without_curenv KStackTf
           (Edge.no_curenv (Sample.frame T_SYSCALL Sample.user_cs))
           eq_refl eq_refl eq_refl).
Defined.

Lemma sample_int32_30 : INT_MIN ≤ 30 ≤ INT_MAX.
Proof. unfold INT_MIN, INT_MAX. lia. Qed.

Lemma user_syscall_round_trip_witness :
  Z.land (tf_cs (load_tf KStackTf Sample.user_syscall)) 3 = 3
  ∧ tf_trapno (load_tf KStackTf Sample.user_syscall) = T_SYSCALL
  ∧ cpu_IF Sample.user_syscall = 0
  ∧ curenv Sample.user_syscall = Some 0%nat
  ∧ INT_MIN ≤ 30 ≤ INT_MAX
  ∧ curenv (entered_user KStackTf 0 Sample.user_syscall) = Some 0%nat
  ∧ env_status (envs (entered_user KStackTf 0 Sample.user_syscall) 0%nat)
    = ENV_RUNNING
  ∧ env_tf (envs (entered_user KStackTf 0 Sample.user_syscall) 0%nat)
    = load_tf KStackTf Sample.user_syscall
  ∧ ∃ st',
      trap KStackTf Sample.user_syscall = EnvRun 0 st'
      ∧ resumed_frame (trap KStackTf Sample.user_syscall)
        = Some (set_reg_eax (to_uint32 30)
                            (load_tf KStackTf Sample.user_syscall))
      ∧ to_int32 (reg_eax (tf_regs (env_tf (envs st' 0%nat)))) = 30
      ∧ same_but_eax (load_tf KStackTf Sample.user_syscall)
                     (env_tf (envs st' 0%nat))
      ∧ kstack_tf st'
        = kstack_tf (entered_user KStackTf 0 Sample.user_syscall)
      ∧ (∀ e', e' ≠ 0%nat →
               envs st' e'
               = envs (entered_user KStackTf 0 Sample.user_syscall) e').
Proof.
  do 4 (split; [reflexivity|]). split; [exact sample_int32_30|].
  do 3 (split; [reflexivity|]).
  exact (user_syscall_round_trip KStackTf Sample.user_syscall 0
           eq_refl eq_refl eq_refl eq_refl sample_int32_30
           eq_refl eq_refl eq_refl).
Defined.

Lemma user_page_fault_shows_cr2_witness :
  Z.land (tf_cs (load_tf KStackTf Sample.user_pgflt)) 3 = 3
  ∧ tf_trapno (load_tf KStackTf Sample.user_pgflt) = T_PGFLT
  ∧ cpu_IF Sample.user_pgflt = 0
  ∧ curenv Sample.user_pgflt = Some 0%nat
  ∧ ∃ st1,
      trap KStackTf Sample.user_pgflt
      = trap_exit (env_destroy (Some 0%nat) st1)
      ∧ incoming KStackTf ∈ console st1
      ∧ user_fault_line 0x1000 0xDEADBEEF 0x00801234 ∈ console st1
      ∧ mkPrint "  cr2  0x%08x\n" [AInt 0xDEADBEEF] ∈ console st1
      ∧ env_tf (envs st1 0%nat) = load_tf KStackTf Sample.user_pgflt.
Proof.
  do 4 (split; [reflexivity|]).
  exact (user_page_fault_shows_cr2 KStackTf Sample.user_pgflt 0
           eq_refl eq_refl eq_refl eq_refl).
Defined.

Lemma user_breakpoint_resumes_witness :
  Z.land (tf_cs (load_tf KStackTf Sample.user_brkpt)) 3 = 3
  ∧ tf_trapno (load_tf KStackTf Sample.user_brkpt) = T_BRKPT
  ∧ cpu_IF Sample.user_brkpt = 0
  ∧ curenv Sample.user_brkpt = Some 0%nat
  ∧ trap KStackTf Sample.user_brkpt
    = trap_exit (monitor (EnvTf 0)
                         (entered_user KStackTf 0 Sample.user_brkpt))
  ∧ console (entered_user KStackTf 0 Sample.user_brkpt)
    = (console Sample.user_brkpt ++ [incoming KStackTf])%list
  ∧ (curenv (monitor (EnvTf 0)
                     (entered_user KStackTf 0 Sample.user_brkpt))
     = Some 0%nat →
     env_status
       (envs (monitor (EnvTf 0)
                      (entered_user KStackTf 0 Sample.user_brkpt)) 0%nat)
     = ENV_RUNNING →
     trap KStackTf Sample.user_brkpt
     = EnvRun 0 (monitor (EnvTf 0)
                         (entered_user KStackTf 0 Sample.user_brkpt))
     ∧ resumed_frame (trap KStackTf Sample.user_brkpt)
       = Some (env_tf
                 (envs (monitor (EnvTf 0)
                          (entered_user KStackTf 0 Sample.user_brkpt))
                       0%nat))).
Proof.
  do 4 (split; [reflexivity|]).
  exact (user_breakpoint_resumes KStackTf Sample.user_brkpt 0
           eq_refl eq_refl eq_refl eq_refl).
Defined.

Lemma sample_keeps_eflags : keeps cpu_eflags.
Proof.
  repeat split; intros; try reflexivity.
  cbn. destruct e; reflexivity.
Qed.

Lemma trap_clears_only_DF_witness :
  keeps cpu_eflags
  ∧ cpu_eflags (final_state (trap KStackTf Sample.irq_on))
    = Z.ldiff (cpu_eflags Sample.irq_on) FL_DF
  ∧ Z.land (cpu_eflags (final_state (trap KStackTf Sample.irq_on))) FL_DF = 0.
Proof.
  split; [exact sample_keeps_eflags|].
  exact (trap_clears_only_DF KStackTf Sample.irq_on sample_keeps_eflags).
Defined.

(** The flags of [Sample.user_syscall] go from [0x402] to [0x002]. *)
Example trap_clears_DF_scenario :
  cpu_eflags Sample.user_syscall = 0x402
  ∧ cpu_eflags (final_state (trap KStackTf Sample.user_syscall)) = 0x002.
Proof. split; vm_compute; reflexivity. Qed.

(** ** A trap that is not from user privilege *)

#[local] Remove Hints Sample.collab : typeclass_instances.

Section KernelOrigin.
Context `{Collaborators}.

(** Dispatch on the frame of the kernel stack leaves alone whatever the
    collaborators, console output and a store into that frame leave
    alone. *)
Lemma trap_dispatch_keeps_stack {A} (obs : KState → A) :
  keeps obs →
  (∀ ls s, obs (log ls s) = obs s) →
  (∀ f s, obs (set_kstack_tf f s) = obs s) →
  ∀ st, obs (result_state (trap_dispatch KStackTf st)) = obs st.
Proof.
  intros (Hm & Hs & Hd) Hlog Hstore st.
  destruct (handled_dec (tf_trapno (load_tf KStackTf st)))
    as [[Ht|[Ht|Ht]]|Hn].
  - rewrite trap_dispatch_brkpt by exact Ht. cbn. apply Hm.
  - rewrite trap_dispatch_pgflt by exact Ht.
    destruct (Z.eq_dec (Z.land (tf_cs (load_tf KStackTf st)) 3) 0)
      as [Hc|Hc].
    + rewrite page_fault_handler_kernel by exact Hc. reflexivity.
    + destruct (curenv st) as [e|] eqn:Hcur.
      * destruct (page_fault_handler_user KStackTf st e Hc Hcur)
          as (ls & _ & ->).
        cbn. rewrite Hd. apply Hlog.
      * rewrite page_fault_handler_no_curenv by assumption. reflexivity.
  - rewrite trap_dispatch_syscall by exact Ht.
    rewrite syscall_handler_eq. cbn. rewrite Hstore. apply Hs.
  - destruct (trap_dispatch_unhandled KStackTf st Hn) as (ls & _ & ->).
    destruct (tf_cs (load_tf KStackTf st) =? GD_KT); cbn.
    + apply Hlog.
    + rewrite Hd. apply Hlog.
Qed.

(** X15: a trap whose frame on the kernel stack is not from user privilege
    is not copied, and [trap] does not return into it: when such a trap ends
    in [env_run(e)], the frame [e] is resumed with is the one its
    environment record held when the trap arrived (the collaborators
    leaving that record's frame alone), whatever was trapped and whatever
    the handlers stored into the frame on the stack. *)
Theorem kernel_trap_resumes_saved_frame st e st' :
  keeps (fun s => env_tf (envs s e)) →
  Z.land (tf_cs (kstack_tf st)) 3 ≠ 3 →
  trap KStackTf st = EnvRun e st' →
  resumed_frame (trap KStackTf st) = Some (env_tf (envs st e))
  ∧ env_tf (envs st' e) = env_tf (envs st e).
Proof.
  intros Hk Hcs Hr.
  assert (env_tf (envs st' e) = env_tf (envs st e)) as He.
  { rewrite trap_unfold in Hr.
    destruct (Z.eq_dec (cpu_IF st) 0) as [Hif|Hif].
    2:{ rewrite (trap_entry_IF_set KStackTf st Hif) in Hr. discriminate Hr. }
    rewrite (trap_entry_kernel KStackTf st Hif Hcs) in Hr.
    pose proof (trap_dispatch_keeps_stack (fun s => env_tf (envs s e)) Hk)
      as Hd.
    specialize (Hd (fun _ _ => eq_refl) (fun _ _ => eq_refl)
                   (entered KStackTf st)).
    destruct (trap_dispatch KStackTf (entered KStackTf st))
      as [[] s2|h s2]; [|discriminate Hr].
    apply trap_exit_EnvRun in Hr as (-> & _ & _). exact Hd. }
  split; [|exact He]. rewrite Hr. cbn. rewrite He. reflexivity.
Qed.

End KernelOrigin.

#[local] Existing Instance Sample.collab.

Lemma sample_keeps_env_tf e : keeps (fun s => env_tf (envs s e)).
Proof.
  repeat split; intros; try reflexivity.
  cbn. destruct e0 as [e0|]; [|reflexivity]. cbn.
  unfold insert, fn_insert.
  repeat (destruct (decide _)); subst; reflexivity.
Qed.

Lemma kernel_trap_resumes_saved_frame_witness :
  keeps (fun s => env_tf (envs s 0%nat))
  ∧ Z.land (tf_cs (kstack_tf (Sample.state (Sample.frame T_SYSCALL GD_KT))))
           3 ≠ 3
  ∧ trap KStackTf (Sample.state (Sample.frame T_SYSCALL GD_KT))
    = EnvRun 0
        (store_tf KStackTf
           (set_reg_eax 30 (Sample.frame T_SYSCALL GD_KT))
           (entered KStackTf (Sample.state (Sample.frame T_SYSCALL GD_KT))))
  ∧ resumed_frame (trap KStackTf (Sample.state (Sample.frame T_SYSCALL GD_KT)))
    = Some (env_tf (envs (Sample.state (Sample.frame T_SYSCALL GD_KT)) 0%nat))
  ∧ env_tf (envs (store_tf KStackTf
                    (set_reg_eax 30 (Sample.frame T_SYSCALL GD_KT))
                    (entered KStackTf
                       (Sample.state (Sample.frame T_SYSCALL GD_KT))))
                 0%nat)
    = env_tf (envs (Sample.state (Sample.frame T_SYSCALL GD_KT)) 0%nat).
Proof.
  assert (Z.land (tf_cs (kstack_tf
                           (Sample.state (Sample.frame T_SYSCALL GD_KT))))
                 3 ≠ 3) as Hcs by discriminate.
  assert (trap KStackTf (Sample.state (Sample.frame T_SYSCALL GD_KT))
          = EnvRun 0
              (store_tf KStackTf
                 (set_reg_eax 30 (Sample.frame T_SYSCALL GD_KT))
                 (entered KStackTf
                    (Sample.state (Sample.frame T_SYSCALL GD_KT))))) as Hr
    by reflexivity.
  split; [exact (sample_keeps_env_tf 0)|].
  split; [exact Hcs|]. split; [exact Hr|].
  exact (kernel_trap_resumes_saved_frame
           (Sample.state (Sample.frame T_SYSCALL GD_KT)) 0 _
           (sample_keeps_env_tf 0) Hcs Hr).
Defined.

(** ** The dispatcher's claims on a destruction that only frees *)


(** With the destruction of [Sample.collab], which hands the processor to
    the next environment, the same trap ends in resuming environment 1. *)
Example user_unhandled_trap_scheduled :
  (∃ st', trap KStackTf Sample.user_gpf = EnvRun 1 st')
  ∧ env_status (envs (final_state (trap KStackTf Sample.user_gpf)) 0%nat)
    = ENV_FREE.
Proof.
  split; [|vm_compute; reflexivity].
  exists (final_state (trap KStackTf Sample.user_gpf)).
  vm_compute. reflexivity.
Qed.

(** A syscall implementation that reports the interrupt-enable bit it is
    called with finds it clear: the result that reaches [eax] is 0. *)
Example syscall_runs_with_interrupts_disabled :
  (reg_eax ∘ tf_regs) <$>
    resumed_frame (trap (H := Probe.collab) KStackTf Sample.user_syscall)
  = Some 0.
Proof. vm_compute. reflexivity. Qed.
